(** * finance_tracker.py: the ledger store and its manager

    A shallow embedding of [FinanceDatabase] and of the parts of
    [FinanceManager] that decide what reaches the store, together with
    the pieces of Python and SQLite they rest on.

    Conventions of the embedding.
    - A [float] amount is a rational number ([Q]); SQLite's [SUM] and
      Python's [-] are taken exactly, rounding is outside the model.
    - The database file is the content of its tables, rows kept in rowid
      order; a connection adds the per-connection [foreign_keys] pragma.
    - A method that can raise returns an [outcome]; a method that writes
      also returns the connection after the call.
    - The clock is an explicit argument: the reading [datetime.now] would
      give at the call. *)

From Stdlib Require Import ZArith QArith Qabs List String Ascii Bool Lia.
From Stdlib Require Import Sorting.Sorted Permutation DecimalString.
Import ListNotations.
Local Open Scope Z_scope.

(** ** Python values *)

Inductive Exception : Type :=
| ValueError (msg : string)
| IntegrityError (msg : string)
| OSError (msg : string).

Inductive outcome (A : Type) : Type :=
| Returns (value : A)
| Raises (e : Exception).
Arguments Returns {A} value.
Arguments Raises {A} e.

(** [if s:] for an [Optional[str]]: [None] and the empty string are falsy. *)
Definition truthy (s : option string) : bool :=
  match s with
  | Some (String _ _) => true
  | _ => false
  end.

Definition str_or_empty (s : option string) : string :=
  match s with
  | Some v => v
  | None => EmptyString
  end.

(** [x in xs] on strings. *)
Definition str_in (x : string) (xs : list string) : bool :=
  existsb (String.eqb x) xs.

(** ** Constants of the module *)

Inductive TransactionType : Type := INCOME | EXPENSE.

Definition value (t : TransactionType) : string :=
  match t with
  | INCOME => "income"
  | EXPENSE => "expense"
  end.

Definition TransactionType_members : list TransactionType := [INCOME; EXPENSE].

Definition DEFAULT_CATEGORIES (kind : string) : list string :=
  if String.eqb kind "income"
  then ["Salary"; "Bonus"; "Investment"; "Gift"; "Other"]%string
  else if String.eqb kind "expense"
  then ["Food"; "Rent"; "Transport"; "Entertainment"; "Utilities";
        "Healthcare"; "Other"]%string
  else [].

(** ** The dataclasses *)

Module Transaction.
Record t : Type := mk {
  id : Z;
  account_id : Z;
  timestamp : string;
  amount : Q;
  type : string;
  category : string;
  description : string
}.
End Transaction.

Module Account.
Record t : Type := mk {
  id : Z;
  name : string;
  created_at : string;
  balance : Q
}.
End Account.

(** ** SQLite: tables, constraints and the three query clauses used *)

(** A row of [accounts (id, name, created_at)]. *)
Record AccountRow : Type := mkAccountRow {
  acc_id : Z;
  acc_name : string;
  acc_created_at : string
}.

(** The rows of [transactions] have the columns of the [Transaction]
    dataclass, and [get_transactions] copies them field by field, so the
    table holds [Transaction.t] directly.  The [snapshots] table is
    created and never touched; it is left out. *)
Record Connection : Type := mkConnection {
  accounts : list AccountRow;
  transactions : list Transaction.t;
  seq_accounts : Z;          (* sqlite_sequence entry of accounts *)
  seq_transactions : Z;      (* sqlite_sequence entry of transactions *)
  foreign_keys : bool        (* PRAGMA foreign_keys of this connection *)
}.

(** A database file that does not exist yet. *)
Definition new_file : Connection :=
  mkConnection [] [] 0 0 false.

(** [sqlite3.connect]: the tables are those of the file; foreign-key
    enforcement is off on every new connection until a
    [PRAGMA foreign_keys = ON] is executed. *)
Definition sqlite3_connect (file : Connection) : Connection :=
  mkConnection (accounts file) (transactions file)
               (seq_accounts file) (seq_transactions file) false.

(** [INTEGER PRIMARY KEY AUTOINCREMENT]: one more than the largest rowid
    the table ever held. *)
Definition autoincrement (seq : Z) (ids : list Z) : Z :=
  Z.max seq (fold_right Z.max 0 ids) + 1.

Definition account_exists (conn : Connection) (account_id : Z) : bool :=
  existsb (fun a => acc_id a =? account_id) (accounts conn).

(** [INSERT INTO accounts (name, created_at) VALUES (?, ?)]. *)
Definition insert_account (conn : Connection) (name created_at : string)
  : outcome Z * Connection :=
  let rowid := autoincrement (seq_accounts conn) (map acc_id (accounts conn)) in
  (Returns rowid,
   mkConnection (accounts conn ++ [mkAccountRow rowid name created_at])
                (transactions conn) rowid (seq_transactions conn)
                (foreign_keys conn)).

(** [INSERT INTO transactions (account_id, timestamp, amount, type,
    category, description) VALUES (?, ?, ?, ?, ?, ?)] under the table's
    [CHECK] and [FOREIGN KEY] clauses; the latter is looked at only when
    the pragma is on. *)
Definition insert_transaction (conn : Connection) (account_id : Z)
    (timestamp : string) (amount : Q) (type category description : string)
  : outcome Z * Connection :=
  if negb (str_in type ["income"; "expense"]%string) then
    (Raises (IntegrityError "CHECK constraint failed"), conn)
  else if foreign_keys conn && negb (account_exists conn account_id) then
    (Raises (IntegrityError "FOREIGN KEY constraint failed"), conn)
  else
    let rowid := autoincrement (seq_transactions conn)
                   (map Transaction.id (transactions conn)) in
    (Returns rowid,
     mkConnection (accounts conn)
       (transactions conn ++
          [Transaction.mk rowid account_id timestamp amount type category
                          description])
       (seq_accounts conn) rowid (foreign_keys conn)).

(** [SUM(e)]: NULL over no rows, the sum otherwise. *)
Definition sql_sum (xs : list Q) : option Q :=
  match xs with
  | [] => None
  | _ => Some (fold_left Qplus xs 0%Q)
  end.

(** [ORDER BY timestamp DESC]: TEXT is compared byte by byte.  The clause
    names no second key; SQLite's sorter leaves rows with equal keys in
    the order the scan produced them, which for these tables (no index)
    is rowid order. *)
Fixpoint order_insert (r : Transaction.t) (sorted : list Transaction.t)
  : list Transaction.t :=
  match sorted with
  | [] => [r]
  | x :: rest =>
      if String.ltb (Transaction.timestamp r) (Transaction.timestamp x)
      then x :: order_insert r rest
      else r :: sorted
  end.

Definition order_by_timestamp_desc (rows : list Transaction.t)
  : list Transaction.t :=
  fold_right order_insert [] rows.

(** [LIMIT n]: a negative [n] means no upper bound. *)
Definition sql_limit {A : Type} (n : Z) (rows : list A) : list A :=
  if n <? 0 then rows else firstn (Z.to_nat n) rows.

(** [GROUP BY category] with [SUM(amount)]: one entry per category met,
    in ascending category order. *)
Fixpoint group_add (c : string) (a : Q) (groups : list (string * Q))
  : list (string * Q) :=
  match groups with
  | [] => [(c, a)]
  | (c', total) :: rest =>
      match String.compare c c' with
      | Eq => (c', (total + a)%Q) :: rest
      | Lt => (c, a) :: groups
      | Gt => (c', total) :: group_add c a rest
      end
  end.

Definition group_by_category (rows : list Transaction.t) : list (string * Q) :=
  fold_left (fun g r => group_add (Transaction.category r)
                                  (Transaction.amount r) g) rows [].

(** ** Python text: [str] of an int, [strip], [isdigit], [int] *)

(** The model reads text as ASCII bytes; digits and blanks outside ASCII
    are not recognised as such. *)

Definition str_int (n : Z) : string :=
  NilZero.string_of_int (Z.to_int n).

Definition code (c : ascii) : Z := Z.of_nat (nat_of_ascii c).

Definition is_digit (c : ascii) : bool :=
  (48 <=? code c) && (code c <=? 57).

Definition digit_value (c : ascii) : Z := code c - 48.

Definition is_space (c : ascii) : bool :=
  ((9 <=? code c) && (code c <=? 13))
  || ((28 <=? code c) && (code c <=? 32)).

Fixpoint lstrip (s : list ascii) : list ascii :=
  match s with
  | c :: rest => if is_space c then lstrip rest else s
  | [] => []
  end.

Definition strip (s : string) : string :=
  string_of_list_ascii
    (rev (lstrip (rev (lstrip (list_ascii_of_string s))))).

Definition isdigit (s : string) : bool :=
  match s with
  | EmptyString => false
  | _ => forallb is_digit (list_ascii_of_string s)
  end.

Definition digits_value (ds : list ascii) : Z :=
  fold_left (fun acc c => 10 * acc + digit_value c) ds 0.

(** [int(s)] for a string on which [isdigit] holds. *)
Definition int_of_digits (s : string) : Z :=
  digits_value (list_ascii_of_string s).

Definition zfill (width : nat) (s : string) : string :=
  (string_of_list_ascii (repeat "0"%char (width - String.length s)) ++ s)%string.

(** ** datetime: [strftime] and [strptime] for the directives in use *)

Record datetime : Type := mkdatetime {
  year : Z;
  month : Z;
  day : Z;
  hour : Z;
  minute : Z;
  second : Z;
  tzinfo : option Z      (* utcoffset in seconds; None for a naive value *)
}.

Inductive directive : Type :=
| dY | dm | dd | dH | dM | dS | dz
| Lit (c : ascii).

(** Reads a format string: [%] followed by a letter is a directive. *)
Fixpoint directives (fmt : list ascii) : list directive :=
  match fmt with
  | "%"%char :: "Y"%char :: rest => dY :: directives rest
  | "%"%char :: "m"%char :: rest => dm :: directives rest
  | "%"%char :: "d"%char :: rest => dd :: directives rest
  | "%"%char :: "H"%char :: rest => dH :: directives rest
  | "%"%char :: "M"%char :: rest => dM :: directives rest
  | "%"%char :: "S"%char :: rest => dS :: directives rest
  | "%"%char :: "z"%char :: rest => dz :: directives rest
  | c :: rest => Lit c :: directives rest
  | [] => []
  end.

Definition pad2 (n : Z) : string := zfill 2 (str_int n).

(** [%z]: empty for a naive value, sign and [HHMM] (and [SS] when not
    zero) otherwise. *)
Definition format_z (tz : option Z) : string :=
  match tz with
  | None => EmptyString
  | Some off =>
      let a := Z.abs off in
      let sign := if off <? 0 then "-"%string else "+"%string in
      let seconds := if a mod 60 =? 0 then EmptyString else pad2 (a mod 60) in
      (sign ++ pad2 (a / 3600) ++ pad2 ((a / 60) mod 60) ++ seconds)%string
  end.

Definition format_directive (dt : datetime) (d : directive) : string :=
  match d with
  | dY => str_int (year dt)
  | dm => pad2 (month dt)
  | dd => pad2 (day dt)
  | dH => pad2 (hour dt)
  | dM => pad2 (minute dt)
  | dS => pad2 (second dt)
  | dz => format_z (tzinfo dt)
  | Lit c => String c EmptyString
  end.

Definition strftime (dt : datetime) (fmt : string) : string :=
  String.concat EmptyString
    (map (format_directive dt) (directives (list_ascii_of_string fmt))).

(** Up to [n] leading digits of [s], and what follows them. *)
Fixpoint take_digits (n : nat) (s : list ascii) : list ascii * list ascii :=
  match n, s with
  | S n', c :: rest =>
      if is_digit c
      then let (ds, tl) := take_digits n' rest in (c :: ds, tl)
      else ([], s)
  | _, _ => ([], s)
  end.

(** A numeric field of one or two digits with value in [lo, hi]; the
    alternatives of the field's pattern are tried longest first, so the
    two-digit reading wins whenever it is in range. *)
Definition parse_field (lo hi : Z) (s : list ascii) : option (Z * list ascii) :=
  match take_digits 2 s with
  | ([], _) => None
  | (ds, rest) =>
      let v := digits_value ds in
      if (lo <=? v) && (v <=? hi) then Some (v, rest) else None
  end.

Definition parse_year (s : list ascii) : option (Z * list ascii) :=
  match take_digits 4 s with
  | ([_; _; _; _] as ds, rest) => Some (digits_value ds, rest)
  | _ => None
  end.

(** [%d] also accepts a blank in place of a leading zero. *)
Definition parse_day (s : list ascii) : option (Z * list ascii) :=
  match s with
  | " "%char :: c :: rest =>
      if is_digit c && negb (code c =? 48)
      then Some (digit_value c, rest) else None
  | _ => parse_field 1 31 s
  end.

Definition skip_colon (s : list ascii) : bool * list ascii :=
  match s with
  | ":"%char :: rest => (true, rest)
  | _ => (false, s)
  end.

(** Two digits, the first of them at most 5. *)
Definition parse_sexagesimal (s : list ascii) : option (Z * list ascii) :=
  match s with
  | a :: b :: rest =>
      if is_digit a && (code a <=? 53) && is_digit b
      then Some (digits_value [a; b], rest) else None
  | _ => None
  end.

Definition skip_fraction (s : list ascii) : list ascii :=
  match s with
  | "."%char :: rest =>
      match take_digits 6 rest with
      | ([], _) => s
      | (_, tl) => tl
      end
  | _ => s
  end.

(** [%z]: [Z], or a sign, [HH], [MM], and optionally [SS] with a
    fraction, colons allowed between the parts if used throughout.
    Gives the offset in whole seconds. *)
Definition parse_z (s : list ascii) : option (Z * list ascii) :=
  match s with
  | "Z"%char :: rest => Some (0, rest)
  | sg :: h1 :: h2 :: rest =>
      if ((code sg =? 43) || (code sg =? 45)) && is_digit h1 && is_digit h2
      then
        let (colon1, rest1) := skip_colon rest in
        match parse_sexagesimal rest1 with
        | None => None
        | Some (mm, rest2) =>
            let (colon2, rest3) := skip_colon rest2 in
            let '(ss, rest4, has_seconds) :=
              match parse_sexagesimal rest3 with
              | Some (ss, tl) => (ss, skip_fraction tl, true)
              | None => (0, rest2, false)
              end in
            if has_seconds && colon1 && negb colon2 then None
            else
              let off := digits_value [h1; h2] * 3600 + mm * 60 + ss in
              Some (if code sg =? 45 then - off else off, rest4)
        end
      else None
  | _ => None
  end.

Definition parse_directive (d : directive) (dt : datetime) (s : list ascii)
  : option (datetime * list ascii) :=
  let set f := option_map (fun '(v, rest) => (f v, rest)) in
  match d with
  | dY => set (fun v => mkdatetime v (month dt) (day dt) (hour dt)
                          (minute dt) (second dt) (tzinfo dt)) (parse_year s)
  | dm => set (fun v => mkdatetime (year dt) v (day dt) (hour dt)
                          (minute dt) (second dt) (tzinfo dt))
              (parse_field 1 12 s)
  | dd => set (fun v => mkdatetime (year dt) (month dt) v (hour dt)
                          (minute dt) (second dt) (tzinfo dt)) (parse_day s)
  | dH => set (fun v => mkdatetime (year dt) (month dt) (day dt) v
                          (minute dt) (second dt) (tzinfo dt))
              (parse_field 0 23 s)
  | dM => set (fun v => mkdatetime (year dt) (month dt) (day dt) (hour dt)
                          v (second dt) (tzinfo dt)) (parse_field 0 59 s)
  | dS => set (fun v => mkdatetime (year dt) (month dt) (day dt) (hour dt)
                          (minute dt) v (tzinfo dt)) (parse_field 0 61 s)
  | dz => set (fun v => mkdatetime (year dt) (month dt) (day dt) (hour dt)
                          (minute dt) (second dt) (Some v)) (parse_z s)
  | Lit c =>
      match s with
      | c' :: rest => if Ascii.eqb c c' then Some (dt, rest) else None
      | [] => None
      end
  end.

Fixpoint parse_directives (ds : list directive) (dt : datetime)
    (s : list ascii) : option datetime :=
  match ds with
  | [] => match s with [] => Some dt | _ => None end
  | d :: ds' =>
      match parse_directive d dt s with
      | Some (dt', rest) => parse_directives ds' dt' rest
      | None => None
      end
  end.

Definition is_leap (y : Z) : bool :=
  ((y mod 4 =? 0) && negb (y mod 100 =? 0)) || (y mod 400 =? 0).

Definition days_in_month (y m : Z) : Z :=
  if m =? 2 then (if is_leap y then 29 else 28)
  else if (m =? 4) || (m =? 6) || (m =? 9) || (m =? 11) then 30
  else 31.

(** The checks of the [datetime] and [timezone] constructors. *)
Definition valid_datetime (dt : datetime) : bool :=
  (1 <=? year dt) && (year dt <=? 9999)
  && (1 <=? month dt) && (month dt <=? 12)
  && (1 <=? day dt) && (day dt <=? days_in_month (year dt) (month dt))
  && (0 <=? hour dt) && (hour dt <=? 23)
  && (0 <=? minute dt) && (minute dt <=? 59)
  && (0 <=? second dt) && (second dt <=? 59)
  && match tzinfo dt with
     | Some off => Z.abs off <? 86400
     | None => true
     end.

(** [datetime.strptime(s, fmt)]; every failure is a [ValueError]. *)
Definition strptime (s fmt : string) : outcome datetime :=
  match parse_directives (directives (list_ascii_of_string fmt))
          (mkdatetime 1900 1 1 0 0 0 None) (list_ascii_of_string s) with
  | Some dt =>
      if valid_datetime dt then Returns dt
      else Raises (ValueError "value out of range")
  | None => Raises (ValueError "time data does not match format")
  end.

(** [dt.replace(hour=h, minute=m, second=s)]. *)
Definition replace_time (dt : datetime) (h m s : Z) : datetime :=
  mkdatetime (year dt) (month dt) (day dt) h m s (tzinfo dt).

Definition ISO_FORMAT : string := "%Y-%m-%dT%H:%M:%S%z".

(** [datetime.now(timezone.utc)]: the clock's reading, made aware. *)
Definition now_utc (clock : datetime) : datetime :=
  mkdatetime (year clock) (month clock) (day clock) (hour clock)
             (minute clock) (second clock) (Some 0).

Definition current_time (clock : datetime) : string :=
  strftime (now_utc clock) ISO_FORMAT.

Definition format_date_display (timestamp : string) : string :=
  match strptime timestamp ISO_FORMAT with
  | Returns dt => strftime dt "%Y-%m-%d %H:%M"
  | Raises _ => timestamp
  end.

(** ** Python text: [repr] of a float *)

(** [n / d] rounded to the nearest integer, ties to even ([0 <= n], [0 < d]). *)
Definition round_half_even (n d : Z) : Z :=
  let q := n / d in
  match (2 * (n mod d)) ?= d with
  | Lt => q
  | Gt => q + 1
  | Eq => if Z.even q then q else q + 1
  end.

(** [x * b ^ k] rounded to the nearest integer, for [0 <= x]. *)
Definition scaled_round (b : Z) (x : Q) (k : Z) : Z :=
  if 0 <=? k
  then round_half_even (Qnum x * b ^ k) (Zpos (Qden x))
  else round_half_even (Qnum x) (Zpos (Qden x) * b ^ (- k)).

(** [m * b ^ k] as a rational. *)
Definition scaled (b m k : Z) : Q :=
  if 0 <=? k then inject_Z (m * b ^ k) else (m # Z.to_pos (b ^ (- k))).

(** The binary64 value nearest to [x], for [0 < x] below the overflow
    threshold: 53 significant bits, exponent not under -1074. *)
Definition binary64 (x : Q) : Q :=
  let l := Z.log2 (Qnum x) - Z.log2 (Zpos (Qden x)) in
  let e0 := if Qle_bool (scaled 2 1 l) x then l - 52 else l - 53 in
  let e := Z.max e0 (-1074) in
  scaled 2 (scaled_round 2 x (- e)) e.

(** The position of the decimal point: the [k] with
    [10 ^ (k - 1) <= x < 10 ^ k]. *)
Fixpoint adjust_point (fuel : nat) (x : Q) (k : Z) : Z :=
  match fuel with
  | O => k
  | S fuel' =>
      if Qle_bool (scaled 10 1 k) x then adjust_point fuel' x (k + 1)
      else if Qle_bool (scaled 10 1 (k - 1)) x then k
      else adjust_point fuel' x (k - 1)
  end.

Definition decimal_point (x : Q) : Z :=
  adjust_point 16 x ((Z.log2 (Qnum x) - Z.log2 (Zpos (Qden x))) * 3 / 10).

(** [x] rounded to [p] significant decimal digits: the digits as an
    integer and the position of the point. *)
Definition to_precision (x : Q) (p : Z) : Z * Z :=
  let k := decimal_point x in
  let m := scaled_round 10 x (p - k) in
  if m =? 10 ^ p then (10 ^ (p - 1), k + 1) else (m, k).

(** The fewest significant digits that read back as the same float. *)
Fixpoint shortest_digits (fuel : nat) (x : Q) (p : Z) : Z * Z :=
  let '(m, k) := to_precision x p in
  match fuel with
  | O => (m, k)
  | S fuel' =>
      if Qeq_bool (binary64 (scaled 10 m (k - p))) x then (m, k)
      else shortest_digits fuel' x (p + 1)
  end.

Definition zeros (n : Z) : string :=
  string_of_list_ascii (repeat "0"%char (Z.to_nat n)).

(** The layout rules of [repr]: plain notation while the point lies
    within [-4 < k <= 16], exponent notation beyond; a whole number gets
    [.0]. *)
Definition layout (ds : string) (k : Z) : string :=
  let p := Z.of_nat (String.length ds) in
  if (-4 <? k) && (k <=? 16) then
    if k <=? 0 then ("0." ++ zeros (- k) ++ ds)%string
    else if k <? p then
      (substring 0 (Z.to_nat k) ds ++ "."
       ++ substring (Z.to_nat k) (Z.to_nat (p - k)) ds)%string
    else (ds ++ zeros (k - p) ++ ".0")%string
  else
    let mantissa :=
      if p =? 1 then ds
      else (substring 0 1 ds ++ "." ++ substring 1 (Z.to_nat (p - 1)) ds)%string in
    let e := k - 1 in
    let sign := if e <? 0 then "-"%string else "+"%string in
    (mantissa ++ "e" ++ sign ++ zfill 2 (str_int (Z.abs e)))%string.

Definition two_pow_1024 : Q := inject_Z (2 ^ 1024).

(** [repr(x)], which is also [str(x)], of the float nearest to [x]. *)
Definition float_repr (x : Q) : string :=
  let a := Qabs x in
  let sign := if Qle_bool 0 x then EmptyString else "-"%string in
  if Qeq_bool a 0 then "0.0"%string
  else
    let f := binary64 a in
    if Qle_bool two_pow_1024 f then (sign ++ "inf")%string
    else
      let '(m, k) := shortest_digits 16 f 1 in
      (sign ++ layout (str_int m) k)%string.

(** ** The csv writer (default dialect) *)






(** ** class FinanceDatabase *)

Module FinanceDatabase.

Definition _initialize_database (self : Connection) (clock : datetime)
  : Connection :=
  if (Z.of_nat (List.length (accounts self)) =? 0)
  then snd (insert_account self "Primary Account" (current_time clock))
  else self.

(** [FinanceDatabase(db_path)], on the content of the file at [db_path]. *)
Definition __init__ (file : Connection) (clock : datetime) : Connection :=
  _initialize_database (sqlite3_connect file) clock.

Definition add_transaction (self : Connection) (account_id : Z) (amount : Q)
    (transaction_type category description : string) (clock : datetime)
  : outcome Z * Connection :=
  if negb (str_in transaction_type (map value TransactionType_members)) then
    (Raises (ValueError "Transaction type must be 'income' or 'expense'"),
     self)
  else
    insert_transaction self account_id (current_time clock) amount
                       transaction_type category description.

Definition where_clause (account_id : Z) (start_date end_date : option string)
    (row : Transaction.t) : bool :=
  (Transaction.account_id row =? account_id)
  && (if truthy start_date
      then String.leb (str_or_empty start_date) (Transaction.timestamp row)
      else true)
  && (if truthy end_date
      then String.leb (Transaction.timestamp row) (str_or_empty end_date)
      else true).

Definition get_transactions (self : Connection) (account_id limit : Z)
    (start_date end_date : option string) : outcome (list Transaction.t) :=
  Returns
    (sql_limit limit
       (order_by_timestamp_desc
          (filter (where_clause account_id start_date end_date)
                  (transactions self)))).

(** [v or 0]. *)
Definition or_0 (v : option Q) : Q :=
  match v with
  | Some x => if Qeq_bool x 0 then 0%Q else x
  | None => 0%Q
  end.

Definition case_when_type (t : string) (row : Transaction.t) : Q :=
  if String.eqb (Transaction.type row) t then Transaction.amount row else 0%Q.

Definition get_balance (self : Connection) (account_id : Z) : outcome Q :=
  let rows := filter (fun r => Transaction.account_id r =? account_id)
                     (transactions self) in
  let income := sql_sum (map (case_when_type "income") rows) in
  let expense := sql_sum (map (case_when_type "expense") rows) in
  Returns (or_0 income - or_0 expense)%Q.

(** The dict is given as its items, in the order the query yields them. *)
Definition get_spending_by_category (self : Connection) (account_id : Z)
    (start_date end_date : option string) : outcome (list (string * Q)) :=
  Returns
    (group_by_category
       (filter (fun r => where_clause account_id start_date end_date r
                         && String.eqb (Transaction.type r) "expense")
               (transactions self))).

Fixpoint accounts_with_balance (self : Connection) (rows : list AccountRow)
  : outcome (list Account.t) :=
  match rows with
  | [] => Returns []
  | row :: rest =>
      match get_balance self (acc_id row) with
      | Raises e => Raises e
      | Returns balance =>
          match accounts_with_balance self rest with
          | Raises e => Raises e
          | Returns accs =>
              Returns (Account.mk (acc_id row) (acc_name row)
                                  (acc_created_at row) balance :: accs)
          end
      end
  end.

(** [SELECT * FROM accounts ORDER BY id]: the rowid scan. *)
Definition get_accounts (self : Connection) : outcome (list Account.t) :=
  accounts_with_balance self (accounts self).

Definition add_account (self : Connection) (name : string) (clock : datetime)
  : outcome Z * Connection :=
  insert_account self name (current_time clock).




End FinanceDatabase.

(** ** class FinanceManager *)

Module FinanceManager.

Record t : Type := mk {
  db : Connection;
  current_account : Z
}.

Definition __init__ (file : Connection) (clock : datetime) : t :=
  mk (FinanceDatabase.__init__ file clock) 1.

(** What a menu action printed as its result; [Uncaught] stands for an
    exception the action lets through to [main]. *)
Inductive message : Type :=
| AmountMustBePositive
| InvalidAmount
| AddedSuccessfully (transaction_id : Z)
| ErrorAddingTransaction (e : Exception)
| CreatedNewAccount (new_id : Z)
| AccountNameCannotBeEmpty
| SwitchedToAccount (acc_id : Z)
| InvalidAccountId
| Uncaught (e : Exception).

(** The category prompt: a number picks from the defaults, other text is
    taken as it is, nothing becomes [Other]. *)
Definition choose_category (kind category_input : string) : string :=
  let category_choice := strip category_input in
  let defaults := DEFAULT_CATEGORIES kind in
  if isdigit category_choice
     && (1 <=? int_of_digits category_choice)
     && (int_of_digits category_choice <=? Z.of_nat (List.length defaults))
  then nth (Z.to_nat (int_of_digits category_choice - 1)) defaults EmptyString
  else match category_choice with
       | EmptyString => "Other"%string
       | _ => category_choice
       end.

(** The body shared by [_add_income] and [_add_expense]; [amount_input]
    is the outcome of [float(input(...))]. *)
Definition add_entry (kind : string) (self : t) (amount_input : outcome Q)
    (category_input description_input : string) (clock : datetime)
  : message * t :=
  match amount_input with
  | Raises (ValueError _) => (InvalidAmount, self)
  | Raises e => (ErrorAddingTransaction e, self)
  | Returns amount =>
      if Qle_bool amount 0 then (AmountMustBePositive, self)
      else
        let category := choose_category kind category_input in
        let description := strip description_input in
        match FinanceDatabase.add_transaction (db self) (current_account self)
                amount kind category description clock with
        | (Returns transaction_id, db') =>
            (AddedSuccessfully transaction_id, mk db' (current_account self))
        | (Raises (ValueError _), db') =>
            (InvalidAmount, mk db' (current_account self))
        | (Raises e, db') =>
            (ErrorAddingTransaction e, mk db' (current_account self))
        end
  end.

Definition _add_income := add_entry "income".

Definition _add_expense := add_entry "expense".

Definition _get_date_range (start_input end_input : string)
  : option string * option string :=
  let start_date := strip start_input in
  let end_date := strip end_input in
  let start_result :=
    if truthy (Some start_date) then
      match strptime start_date "%Y-%m-%d" with
      | Returns dt => Returns (strftime dt ISO_FORMAT)
      | Raises e => Raises e
      end
    else Returns start_date in
  match start_result with
  | Raises _ => (None, None)
  | Returns start_date' =>
      if truthy (Some end_date) then
        match strptime end_date "%Y-%m-%d" with
        | Returns dt =>
            (Some start_date',
             Some (strftime (replace_time dt 23 59 59) ISO_FORMAT))
        | Raises _ => (None, None)
        end
      else (Some start_date', Some end_date)
  end.

Definition _view_transactions (self : t) (limit : Z)
    (start_input end_input : string) : outcome (list Transaction.t) :=
  let (start_date, end_date) := _get_date_range start_input end_input in
  FinanceDatabase.get_transactions (db self) (current_account self) limit
                                   start_date end_date.

Definition _view_spending_summary (self : t) (start_input end_input : string)
  : outcome (list (string * Q)) :=
  let (start_date, end_date) := _get_date_range start_input end_input in
  FinanceDatabase.get_spending_by_category (db self) (current_account self)
                                           start_date end_date.

(** Choice 1 of [_manage_accounts], [acc_id] being the number typed. *)
Definition switch_account (self : t) (acc_id : Z) : message * t :=
  match FinanceDatabase.get_accounts (db self) with
  | Returns accounts =>
      if existsb (fun acc => Account.id acc =? acc_id) accounts
      then (SwitchedToAccount acc_id, mk (db self) acc_id)
      else (InvalidAccountId, self)
  | Raises e => (Uncaught e, self)
  end.

(** Choice 2 of [_manage_accounts]. *)
Definition create_account (self : t) (name_input : string) (clock : datetime)
  : message * t :=
  let name := strip name_input in
  if truthy (Some name) then
    match FinanceDatabase.add_account (db self) name clock with
    | (Returns new_id, db') =>
        (CreatedNewAccount new_id, mk db' (current_account self))
    | (Raises e, db') => (Uncaught e, mk db' (current_account self))
    end
  else (AccountNameCannotBeEmpty, self).

End FinanceManager.

(** ** Notions used to state the properties *)

Import FinanceDatabase.

(** One call [add_transaction(account_id, amount, type, category,
    description)] on a fixed account, with the clock's reading at the call. *)
Record call : Type := mkcall {
  call_amount : Q;
  call_type : string;
  call_category : string;
  call_description : string;
  call_clock : datetime
}.

(** The calls made one after the other; a call that raises leaves the
    connection as it was and the next one goes on. *)
Fixpoint add_transactions (self : Connection) (account_id : Z)
    (calls : list call) : Connection :=
  match calls with
  | [] => self
  | c :: rest =>
      add_transactions
        (snd (add_transaction self account_id (call_amount c) (call_type c)
                (call_category c) (call_description c) (call_clock c)))
        account_id rest
  end.

Definition total (xs : list Q) : Q := fold_right Qplus 0%Q xs.



(** The rows of one account, and what their rows of one type add up to. *)
Definition rows_of (account_id : Z) (rows : list Transaction.t)
  : list Transaction.t :=
  filter (fun r => Transaction.account_id r =? account_id) rows.


Definition no_transactions_of (account_id : Z) (conn : Connection) : Prop :=
  Forall (fun r => Transaction.account_id r <> account_id) (transactions conn).

(** Rows in rowid order carry strictly increasing ids. *)
Definition ascending_ids (rows : list Transaction.t) : Prop :=
  StronglySorted (fun x y => Transaction.id x < Transaction.id y) rows.

(** Later timestamp first; among equal timestamps the larger id first. *)
Definition newest_first_then_id_desc (x y : Transaction.t) : Prop :=
  String.ltb (Transaction.timestamp y) (Transaction.timestamp x) = true
  \/ (Transaction.timestamp x = Transaction.timestamp y
      /\ Transaction.id y < Transaction.id x).

(** Later timestamp first; among equal timestamps the smaller id first. *)
Definition newest_first_then_id_asc (x y : Transaction.t) : Prop :=
  String.ltb (Transaction.timestamp y) (Transaction.timestamp x) = true
  \/ (Transaction.timestamp x = Transaction.timestamp y
      /\ Transaction.id x < Transaction.id y).

(** The connections the program can hold: a database opened on a new
    file, reopened later, and written through the two inserting methods. *)
Inductive reachable : Connection -> Prop :=
| reach_new clock :
    reachable (FinanceDatabase.__init__ new_file clock)
| reach_reopen conn clock :
    reachable conn -> reachable (FinanceDatabase.__init__ conn clock)
| reach_add_transaction conn account_id amount ty category description clock :
    reachable conn ->
    reachable (snd (add_transaction conn account_id amount ty category
                      description clock))
| reach_add_account conn name clock :
    reachable conn -> reachable (snd (add_account conn name clock)).

(** Text with a point followed by exactly two digits and nothing more. *)
Fixpoint two_decimal_places (s : list ascii) : bool :=
  match s with
  | [] => false
  | c :: rest =>
      if Ascii.eqb c "."%char
      then match rest with
           | [a; b] => is_digit a && is_digit b
           | _ => false
           end
      else two_decimal_places rest
  end.

(** Sample data: the clock at three instants, a fresh database. *)
Definition noon : datetime := mkdatetime 2024 3 15 12 0 0 None.
Definition half_past_two : datetime := mkdatetime 2024 3 15 14 30 0 None.
Definition last_second : datetime := mkdatetime 2024 3 15 23 59 59 None.
Definition fresh : Connection := FinanceDatabase.__init__ new_file noon.

(** An income and an expense entered within the same second. *)
Definition same_second : Connection :=
  add_transactions fresh 1
    [mkcall 1000 "income" "Salary" EmptyString noon;
     mkcall 250 "expense" "Rent" EmptyString noon].


(** One expense entered in the last second of 15 March 2024. *)
Definition late_entry : Connection :=
  add_transactions fresh 1
    [mkcall 40 "expense" "Food" EmptyString last_second].

(** ** Display code: format specifications and the [display] methods *)

Definition TRANSACTION_TYPES (key : string) : option string :=
  if String.eqb key "income" then Some "+"%string
  else if String.eqb key "expense" then Some "-"%string
  else None.

Definition spaces (n : nat) : string :=
  string_of_list_ascii (repeat " "%char n).

(** [{s:<width}]: text padded on the right, never cut. *)
Definition ljust (width : nat) (s : string) : string :=
  (s ++ spaces (width - String.length s))%string.

(** [{x:width}] for a number: text padded on the left. *)
Definition rjust (width : nat) (s : string) : string :=
  (spaces (width - String.length s) ++ s)%string.

(** [{x:.nf}]: the float nearest to [x] rounded to [decimals] places,
    ties to even. *)
Definition format_fixed (decimals : nat) (x : Q) : string :=
  let a := Qabs x in
  let sign := if Qle_bool 0 x then EmptyString else "-"%string in
  let f := if Qeq_bool a 0 then 0%Q else binary64 a in
  if Qle_bool two_pow_1024 f then (sign ++ "inf")%string
  else
    let unit := 10 ^ Z.of_nat decimals in
    let m := scaled_round 10 f (Z.of_nat decimals) in
    let fraction :=
      match decimals with
      | O => EmptyString
      | _ => ("." ++ zfill decimals (str_int (m mod unit)))%string
      end in
    (sign ++ str_int (m / unit) ++ fraction)%string.

(** [Transaction.display]. *)
Definition display_transaction (self : Transaction.t) : string :=
  let sign :=
    match TRANSACTION_TYPES (Transaction.type self) with
    | Some s => s
    | None => EmptyString
    end in
  let formatted_date := format_date_display (Transaction.timestamp self) in
  ("[" ++ str_int (Transaction.id self) ++ "] " ++ formatted_date ++ " "
   ++ sign ++ format_fixed 2 (Transaction.amount self) ++ " | "
   ++ ljust 15 (Transaction.category self) ++ " | "
   ++ Transaction.description self)%string.

(** [Account.display]. *)
Definition display_account (self : Account.t) : string :=
  ("[" ++ str_int (Account.id self) ++ "] " ++ ljust 20 (Account.name self)
   ++ " | Balance: " ++ format_fixed 2 (Account.balance self))%string.

(** ** The spending summary as printed *)

(** [sorted(items, key=lambda x: x[1], reverse=True)]: largest amount
    first, items of equal amount in their original order. *)
Fixpoint amount_insert (item : string * Q) (sorted : list (string * Q))
  : list (string * Q) :=
  match sorted with
  | [] => [item]
  | x :: rest =>
      if Qle_bool (snd x) (snd item) then item :: sorted
      else x :: amount_insert item rest
  end.

Definition sorted_by_amount (items : list (string * Q)) : list (string * Q) :=
  fold_right amount_insert [] items.

(** [sum(values)]. *)
Definition py_sum (xs : list Q) : Q := fold_left Qplus xs 0%Q.

(** The rows of the summary: category, amount and its percentage of the
    total; and the total printed last. *)
Definition summary_rows (spending : list (string * Q))
  : list (string * Q * Q) * Q :=
  let total := py_sum (map snd spending) in
  (map (fun '(category, amount) =>
          (category, amount,
           if Qle_bool total 0 then 0%Q else (amount / total * 100)%Q))
       (sorted_by_amount spending),
   total).

Definition summary_line (row : string * Q * Q) : string :=
  let '(category, amount, percentage) := row in
  (ljust 15 category ++ ": " ++ rjust 8 (format_fixed 2 amount)
   ++ " (" ++ format_fixed 1 percentage ++ "%)")%string.

(** ** The rest of [FinanceManager]: export and the menus *)





(** What the user does inside [_manage_accounts] before going back:
    choice 1 with the text typed read by [int], choice 2 with the name
    typed, or something else. *)
Inductive account_action : Type :=
| SwitchAccount (typed : outcome Z)
| CreateAccount (name_input : string) (clock : datetime)
| OtherAccountChoice.

Definition account_step (self : FinanceManager.t) (a : account_action)
  : FinanceManager.t :=
  match a with
  | SwitchAccount (Returns acc_id) =>
      snd (FinanceManager.switch_account self acc_id)
  | SwitchAccount (Raises _) => self
  | CreateAccount name_input clock =>
      snd (FinanceManager.create_account self name_input clock)
  | OtherAccountChoice => self
  end.

Definition _manage_accounts (self : FinanceManager.t)
    (actions : list account_action) : FinanceManager.t :=
  fold_left account_step actions self.

(** One round of [display_menu]: the choice made and what is typed at
    the prompts that follow.  Choices 3, 4 and 6 read the store and write
    nothing to it. *)
Inductive menu_action : Type :=
| AddIncome (amount_input : outcome Q) (category_input description_input : string)
            (clock : datetime)
| AddExpense (amount_input : outcome Q) (category_input description_input : string)
             (clock : datetime)
| ViewTransactions (start_input end_input : string)
| ViewSpendingSummary (start_input end_input : string)
| ManageAccounts (actions : list account_action)
| ExportData (start_input end_input filename_input : string)
| OtherChoice.

Definition menu_step (self : FinanceManager.t) (a : menu_action)
  : FinanceManager.t :=
  match a with
  | AddIncome amount_input category_input description_input clock =>
      snd (FinanceManager._add_income self amount_input category_input
             description_input clock)
  | AddExpense amount_input category_input description_input clock =>
      snd (FinanceManager._add_expense self amount_input category_input
             description_input clock)
  | ManageAccounts actions => _manage_accounts self actions
  | ViewTransactions _ _ | ViewSpendingSummary _ _ | ExportData _ _ _
  | OtherChoice => self
  end.

(** [display_menu] until choice 7: the manager as the rounds leave it. *)
Definition display_menu (self : FinanceManager.t) (rounds : list menu_action)
  : FinanceManager.t :=
  fold_left menu_step rounds self.

(** [main] run once per session, each session on the file the previous
    one left: the store after the last session. *)
Fixpoint run_sessions (file : Connection)
    (sessions : list (datetime * list menu_action)) : Connection :=
  match sessions with
  | [] => file
  | (clock, rounds) :: rest =>
      run_sessions
        (FinanceManager.db
           (display_menu (FinanceManager.__init__ file clock) rounds))
        rest
  end.

(** ** Further notions used to state properties *)

(** Every transaction row names an account that exists. *)
Definition referential_integrity (conn : Connection) : Prop :=
  Forall (fun r => account_exists conn (Transaction.account_id r) = true)
         (transactions conn).

(** What the menus let into the store. *)
Definition well_entered (r : Transaction.t) : Prop :=
  (0 < Transaction.amount r)%Q
  /\ (Transaction.type r = "income"%string
      \/ Transaction.type r = "expense"%string)
  /\ Transaction.category r <> EmptyString.

(** A store as the menus keep it, and a manager on such a store whose
    current account exists. *)
Definition store_in_order (conn : Connection) : Prop :=
  referential_integrity conn
  /\ Forall well_entered (transactions conn)
  /\ Forall (fun a => acc_name a <> EmptyString) (accounts conn).

Definition manager_in_order (m : FinanceManager.t) : Prop :=
  store_in_order (FinanceManager.db m)
  /\ account_exists (FinanceManager.db m) (FinanceManager.current_account m)
     = true
  /\ account_exists (FinanceManager.db m) 1 = true.

(** The date part of the query's condition. *)
Definition within_dates (start_date end_date : option string)
    (row : Transaction.t) : bool :=
  where_clause (Transaction.account_id row) start_date end_date row.

(** Not older, as text, than. *)
Definition not_older (x y : Transaction.t) : Prop :=
  String.leb (Transaction.timestamp y) (Transaction.timestamp x) = true.

(** A clock reading that [datetime] can hold, with a four-digit year. *)
Definition valid_clock (clock : datetime) : Prop :=
  valid_datetime (now_utc clock) = true /\ 1000 <= year clock.

(** Which of two readings is earlier, field by field. *)
Definition lexicographic (c1 c2 : comparison) : comparison :=
  match c1 with
  | Eq => c2
  | _ => c1
  end.

Definition chronological (a b : datetime) : comparison :=
  lexicographic (year a ?= year b)
    (lexicographic (month a ?= month b)
       (lexicographic (day a ?= day b)
          (lexicographic (hour a ?= hour b)
             (lexicographic (minute a ?= minute b)
                (second a ?= second b))))).

(** Categories in strictly ascending byte order. *)
Definition strictly_by_category (x y : string * Q) : Prop :=
  String.compare (fst x) (fst y) = Lt.

(** [pad2 n] is two digits that read back as [n]; [str_int y] is four
    digits that read back as [y]. *)
Definition two_digits_of (n : Z) : bool :=
  match pad2 n with
  | String a (String b EmptyString) =>
      is_digit a && is_digit b && (digits_value [a; b] =? n)
  | _ => false
  end.

Definition four_digits_of (y : Z) : bool :=
  match str_int y with
  | String a (String b (String c (String d EmptyString))) =>
      is_digit a && is_digit b && is_digit c && is_digit d
      && (digits_value [a; b; c; d] =? y)
  | _ => false
  end.

(** A character other than the decimal point. *)
Definition not_a_point (c : ascii) : Prop := Ascii.eqb c "."%char = false.

(** All the integers from [lo], [n] of them. *)
Definition integers_from (lo : Z) (n : nat) : list Z :=
  map (fun i => lo + Z.of_nat i) (seq 0 n).

(** * Properties *)

(** ** Byte order on text *)

Section TextOrder.

Lemma ascii_compare_lt_trans (a b c : ascii) :
  Ascii.compare a b = Lt -> Ascii.compare b c = Lt -> Ascii.compare a c = Lt.
Proof.
  unfold Ascii.compare. rewrite !N.compare_lt_iff. apply N.lt_trans.
Qed.

Lemma compare_lt_trans (s1 s2 s3 : string) :
  String.compare s1 s2 = Lt -> String.compare s2 s3 = Lt ->
  String.compare s1 s3 = Lt.
Proof.
  revert s2 s3.
  induction s1 as [|a s1 IH]; intros [|b s2] [|c s3]; simpl;
    try discriminate; auto.
  destruct (Ascii.compare a b) eqn:Hab; try discriminate;
    destruct (Ascii.compare b c) eqn:Hbc; try discriminate; intros H12 H23.
  - apply Ascii.compare_eq_iff in Hab, Hbc. subst.
    replace (Ascii.compare c c) with Eq.
    + eapply IH; eauto.
    + symmetry. unfold Ascii.compare. apply N.compare_refl.
  - apply Ascii.compare_eq_iff in Hab. subst. now rewrite Hbc.
  - apply Ascii.compare_eq_iff in Hbc. subst. now rewrite Hab.
  - now rewrite (ascii_compare_lt_trans a b c).
Qed.

Lemma compare_refl (s : string) : String.compare s s = Eq.
Proof.
  induction s as [|a s IH]; simpl; auto.
  unfold Ascii.compare. now rewrite N.compare_refl.
Qed.

Lemma ltb_lt (s1 s2 : string) :
  String.ltb s1 s2 = true <-> String.compare s1 s2 = Lt.
Proof.
  unfold String.ltb. destruct (String.compare s1 s2); split; congruence.
Qed.

Lemma ltb_irrefl (s : string) : String.ltb s s = false.
Proof. unfold String.ltb. now rewrite compare_refl. Qed.

(** Not below means above or equal. *)
Lemma ltb_false_cases (s1 s2 : string) :
  String.ltb s1 s2 = false -> String.ltb s2 s1 = true \/ s1 = s2.
Proof.
  unfold String.ltb. rewrite (String.compare_antisym s2 s1).
  destruct (String.compare s1 s2) eqn:H; simpl; auto; try discriminate.
  right. now apply String.compare_eq_iff.
Qed.

Lemma ltb_trans (s1 s2 s3 : string) :
  String.ltb s1 s2 = true -> String.ltb s2 s3 = true ->
  String.ltb s1 s3 = true.
Proof. rewrite !ltb_lt. apply compare_lt_trans. Qed.

Lemma leb_refl (s : string) : String.leb s s = true.
Proof. unfold String.leb. now rewrite compare_refl. Qed.

(** A text is strictly below each of its proper extensions. *)
Lemma compare_extension (s suffix : string) :
  suffix <> EmptyString -> String.compare s (s ++ suffix) = Lt.
Proof.
  intros Hne. induction s as [|a s IH]; simpl.
  - destruct suffix; [contradiction | reflexivity].
  - replace (Ascii.compare a a) with Eq; auto.
    symmetry. unfold Ascii.compare. apply N.compare_refl.
Qed.

Lemma leb_extension_false (s suffix : string) :
  suffix <> EmptyString -> String.leb (s ++ suffix) s = false.
Proof.
  intros Hne. unfold String.leb.
  rewrite String.compare_antisym, (compare_extension s suffix Hne).
  reflexivity.
Qed.

End TextOrder.

(** ** ORDER BY and LIMIT *)

Section OrderBy.

Lemma order_insert_perm (r : Transaction.t) (l : list Transaction.t) :
  Permutation (r :: l) (order_insert r l).
Proof.
  induction l as [|x l IH]; simpl; auto.
  destruct (String.ltb _ _); auto.
  rewrite perm_swap. now constructor.
Qed.

Lemma order_by_perm (l : list Transaction.t) :
  Permutation l (order_by_timestamp_desc l).
Proof.
  induction l as [|x l IH]; simpl; auto.
  rewrite <- order_insert_perm. now constructor.
Qed.

(** Where [r] goes when every row of [l] was scanned after it. *)
Lemma order_insert_sorted (r : Transaction.t) (l : list Transaction.t) :
  StronglySorted newest_first_then_id_asc l ->
  Forall (fun z => Transaction.id r < Transaction.id z) l ->
  StronglySorted newest_first_then_id_asc (order_insert r l).
Proof.
  induction 1 as [|x l Hl IH Hx]; intros Hr; simpl.
  - repeat constructor.
  - inversion Hr as [|? ? Hrx Hrl]; subst.
    destruct (String.ltb (Transaction.timestamp r) (Transaction.timestamp x))
      eqn:Hlt.
    + constructor; auto.
      rewrite <- order_insert_perm. constructor; auto. now left.
    + constructor; [now constructor|].
      apply ltb_false_cases in Hlt.
      assert (Hhead : newest_first_then_id_asc r x).
      { destruct Hlt as [Hlt | Heq]; [now left | now right]. }
      constructor; auto.
      rewrite Forall_forall in Hx, Hrl |- *. intros z Hz.
      destruct (Hx z Hz) as [Hzx | [Heqx _]].
      * left. destruct Hlt as [Hlt | Heq].
        -- eapply ltb_trans; eauto.
        -- now rewrite Heq.
      * destruct Hlt as [Hlt | Heq].
        -- left. now rewrite <- Heqx.
        -- right. split; [congruence | now apply Hrl].
Qed.

Lemma order_by_sorted (l : list Transaction.t) :
  ascending_ids l ->
  StronglySorted newest_first_then_id_asc (order_by_timestamp_desc l).
Proof.
  induction 1 as [|x l Hl IH Hx]; simpl.
  - constructor.
  - apply order_insert_sorted; auto.
    now rewrite <- order_by_perm.
Qed.

Lemma StronglySorted_filter {A : Type} (R : A -> A -> Prop) (f : A -> bool)
    (l : list A) :
  StronglySorted R l -> StronglySorted R (filter f l).
Proof.
  induction 1 as [|x l Hl IH Hx]; simpl; [constructor|].
  destruct (f x); auto. constructor; auto.
  rewrite Forall_forall in Hx |- *. intros z Hz.
  apply filter_In in Hz. now apply Hx.
Qed.

Lemma firstn_subset {A : Type} (n : nat) (l : list A) : incl (firstn n l) l.
Proof.
  revert n. induction l as [|x l IH]; intros [|n] z; simpl; try tauto.
  intros [-> | Hz]; [now left | right; now apply (IH n)].
Qed.

Lemma StronglySorted_firstn {A : Type} (R : A -> A -> Prop) (n : nat)
    (l : list A) :
  StronglySorted R l -> StronglySorted R (firstn n l).
Proof.
  intros H. revert n.
  induction H as [|x l Hl IH Hx]; intros [|n]; simpl; try constructor; auto.
  rewrite Forall_forall in Hx |- *. intros z Hz.
  apply Hx. revert Hz. apply (firstn_subset n l).
Qed.

Lemma sql_limit_incl {A : Type} (n : Z) (l : list A) : incl (sql_limit n l) l.
Proof.
  unfold sql_limit. destruct (n <? 0); [apply incl_refl | apply firstn_subset].
Qed.

Lemma sql_limit_sorted {A : Type} (R : A -> A -> Prop) (n : Z) (l : list A) :
  StronglySorted R l -> StronglySorted R (sql_limit n l).
Proof.
  unfold sql_limit. destruct (n <? 0); auto. apply StronglySorted_firstn.
Qed.

Lemma sql_limit_length {A : Type} (n : Z) (l : list A) :
  0 <= n -> Z.of_nat (List.length (sql_limit n l)) <= n.
Proof.
  intros Hn. unfold sql_limit.
  destruct (n <? 0) eqn:E; [apply Z.ltb_lt in E; lia|].
  rewrite length_firstn. lia.
Qed.

End OrderBy.

(** ** What the inserting methods do to the tables *)

Section Inserts.

Lemma fold_max_bound (ids : list Z) :
  Forall (fun i => i <= fold_right Z.max 0 ids) ids.
Proof.
  induction ids as [|i ids IH]; simpl; constructor; [lia|].
  eapply Forall_impl; [|exact IH]. simpl. intros; lia.
Qed.

Lemma autoincrement_fresh (seq : Z) (ids : list Z) :
  seq < autoincrement seq ids /\ Forall (fun i => i < autoincrement seq ids) ids.
Proof.
  unfold autoincrement. split; [lia|].
  eapply Forall_impl; [|apply fold_max_bound]. simpl. intros; lia.
Qed.

Lemma type_check_agrees (ty : string) :
  str_in ty (map value TransactionType_members)
  = str_in ty ["income"; "expense"]%string.
Proof. reflexivity. Qed.

Lemma str_in_types (ty : string) :
  str_in ty ["income"; "expense"]%string = true <->
  ty = "income"%string \/ ty = "expense"%string.
Proof.
  unfold str_in. simpl. rewrite !orb_true_iff, !String.eqb_eq.
  intuition discriminate.
Qed.

(** A call with a type outside the enumeration raises and writes nothing. *)
Lemma add_transaction_rejected self account_id amount ty category description
    clock :
  str_in ty ["income"; "expense"]%string = false ->
  add_transaction self account_id amount ty category description clock
  = (Raises (ValueError "Transaction type must be 'income' or 'expense'"),
     self).
Proof.
  intros H. unfold add_transaction. now rewrite type_check_agrees, H.
Qed.

(** A call with a type of the enumeration appends one row when the
    foreign key is not enforced or is satisfied. *)
Lemma add_transaction_accepted self account_id amount ty category description
    clock :
  str_in ty ["income"; "expense"]%string = true ->
  foreign_keys self = false \/ account_exists self account_id = true ->
  let rowid := autoincrement (seq_transactions self)
                 (map Transaction.id (transactions self)) in
  add_transaction self account_id amount ty category description clock
  = (Returns rowid,
     mkConnection (accounts self)
       (transactions self ++
          [Transaction.mk rowid account_id (current_time clock) amount ty
                          category description])
       (seq_accounts self) rowid (foreign_keys self)).
Proof.
  intros Hty Hfk. unfold add_transaction, insert_transaction.
  rewrite type_check_agrees, Hty. simpl.
  destruct Hfk as [-> | ->]; simpl; [reflexivity|].
  now rewrite andb_false_r.
Qed.

Lemma ascending_ids_snoc (rows : list Transaction.t) (r : Transaction.t) :
  ascending_ids rows ->
  Forall (fun x => Transaction.id x < Transaction.id r) rows ->
  ascending_ids (rows ++ [r]).
Proof.
  unfold ascending_ids. induction 1 as [|x l Hl IH Hx]; intros Hr; simpl.
  - repeat constructor.
  - inversion Hr; subst. constructor; auto.
    apply Forall_app. split; auto.
Qed.

Lemma insert_transaction_ascending conn account_id ts amount ty category
    description :
  ascending_ids (transactions conn) ->
  ascending_ids
    (transactions
       (snd (insert_transaction conn account_id ts amount ty category
               description))).
Proof.
  intros H. unfold insert_transaction.
  destruct (negb _); auto. destruct (_ && _); auto. simpl.
  apply ascending_ids_snoc; auto.
  destruct (autoincrement_fresh (seq_transactions conn)
              (map Transaction.id (transactions conn))) as [_ Hf].
  rewrite Forall_map in Hf. exact Hf.
Qed.

Lemma initialize_keeps conn clock :
  transactions (_initialize_database conn clock) = transactions conn
  /\ foreign_keys (_initialize_database conn clock) = foreign_keys conn.
Proof.
  unfold _initialize_database. destruct (_ =? 0); simpl; auto.
Qed.

(** Every connection of the program has foreign keys unenforced and its
    transaction rows in increasing id order. *)
Lemma reachable_invariant (conn : Connection) :
  reachable conn ->
  foreign_keys conn = false /\ ascending_ids (transactions conn).
Proof.
  induction 1 as [clock | conn clock _ [IHf IHa]
                 | conn a amount ty c d clock _ [IHf IHa]
                 | conn name clock _ [IHf IHa]].
  - split; [reflexivity | constructor].
  - unfold FinanceDatabase.__init__.
    destruct (initialize_keeps (sqlite3_connect conn) clock) as [-> ->].
    split; [reflexivity | exact IHa].
  - split.
    + unfold add_transaction, insert_transaction.
      repeat match goal with
             | |- context [if ?b then _ else _] => destruct b
             end; exact IHf.
    + unfold add_transaction. destruct (negb _); auto.
      now apply insert_transaction_ascending.
  - split; assumption.
Qed.

End Inserts.

(** ** Sums and the balance *)

Section Balance.

Lemma fold_left_Qplus (xs : list Q) (a : Q) :
  (fold_left Qplus xs a == a + total xs)%Q.
Proof.
  revert a. induction xs as [|x xs IH]; intros a; simpl.
  - ring.
  - rewrite IH. ring.
Qed.








Lemma rows_of_none account_id conn :
  no_transactions_of account_id conn ->
  rows_of account_id (transactions conn) = [].
Proof.
  unfold no_transactions_of, rows_of.
  induction 1 as [|r rows Hr _ IH]; simpl; auto.
  apply Z.eqb_neq in Hr. now rewrite Hr.
Qed.

End Balance.

(** ** The balance of an account *)






(** ** What [add_transaction] and [add_account] accept *)

(** C8.  A type outside income and expense makes [add_transaction] raise
    [ValueError], and the connection, its transaction table included, is
    as before. *)
Theorem C8_unknown_type_is_rejected :
  forall (self : Connection) (account_id : Z) (amount : Q)
         (ty category description : string) (clock : datetime),
    ty <> "income"%string ->
    ty <> "expense"%string ->
    exists msg,
      add_transaction self account_id amount ty category description clock
      = (Raises (ValueError msg), self).
Proof.
  intros self account_id amount ty category description clock Hi He.
  eexists. apply add_transaction_rejected.
  destruct (str_in ty _) eqn:E; auto.
  apply str_in_types in E. tauto.
Qed.

Lemma C8_witness :
  exists msg,
    add_transaction same_second 1 75 "transfer" "Savings" EmptyString noon
    = (Raises (ValueError msg), same_second).
Proof.
  apply (C8_unknown_type_is_rejected same_second 1 75 "transfer" "Savings"
           EmptyString noon); discriminate.
Defined.

(** C2 fails on the code: the connection never turns foreign keys on, so
    a transaction for account 999, which does not exist, is stored. *)
Theorem C2_missing_account_is_accepted :
  account_exists fresh 999 = false
  /\ add_transaction fresh 999 10 "income" "Salary" EmptyString noon
     = (Returns 1,
        mkConnection (accounts fresh)
          [Transaction.mk 1 999 "2024-03-15T12:00:00+0000" 10 "income"
                          "Salary" EmptyString]
          1 1 false).
Proof. split; reflexivity. Qed.

(** What the callers do store has a positive amount. *)
Lemma manager_entries_are_positive (kind : string) (self self' : FinanceManager.t)
    (amount_input : outcome Q) (category_input description_input : string)
    (clock : datetime) (transaction_id : Z) :
  FinanceManager.add_entry kind self amount_input category_input
    description_input clock
  = (FinanceManager.AddedSuccessfully transaction_id, self') ->
  exists amount, amount_input = Returns amount /\ (0 < amount)%Q.
Proof.
  unfold FinanceManager.add_entry.
  destruct amount_input as [amount | [msg | msg | msg]]; try discriminate.
  destruct (Qle_bool amount 0) eqn:E; [discriminate|].
  intros _. exists amount. split; auto.
  apply Qnot_le_lt. intros H. apply Qle_bool_iff in H. congruence.
Qed.

(** C3 as stated fails: the store takes an expense of -5. *)
Lemma C3_counterexample :
  (-5 <= 0)%Q
  /\ add_transaction fresh 1 (-5) "expense" "Food" EmptyString noon
     = (Returns 1,
        mkConnection (accounts fresh)
          [Transaction.mk 1 1 "2024-03-15T12:00:00+0000" (-5) "expense"
                          "Food" EmptyString]
          1 1 false).
Proof. split; [discriminate | reflexivity]. Qed.

(** C3, amended.  The check on the amount is made by the callers: for
    every amount that is 0 or less, [_add_income] and [_add_expense]
    report that the amount must be positive and leave the store as it
    was, whereas [add_transaction] itself stores such an amount under
    either type.  What the two callers do store has an amount above 0. *)
Theorem C3_amount_is_checked_by_the_manager :
  forall (self : FinanceManager.t) (amount : Q)
         (category_input description_input : string) (clock : datetime),
    foreign_keys (FinanceManager.db self) = false ->
    (amount <= 0)%Q ->
    FinanceManager._add_income self (Returns amount) category_input
      description_input clock
    = (FinanceManager.AmountMustBePositive, self)
    /\ FinanceManager._add_expense self (Returns amount) category_input
         description_input clock
       = (FinanceManager.AmountMustBePositive, self)
    /\ (forall t category description,
        exists transaction_id conn,
          add_transaction (FinanceManager.db self)
            (FinanceManager.current_account self) amount (value t) category
            description clock
          = (Returns transaction_id, conn)
          /\ In (Transaction.mk transaction_id
                   (FinanceManager.current_account self) (current_time clock)
                   amount (value t) category description)
                (transactions conn))
    /\ (forall amount_input transaction_id self',
          FinanceManager._add_income self amount_input category_input
            description_input clock
          = (FinanceManager.AddedSuccessfully transaction_id, self')
          \/ FinanceManager._add_expense self amount_input category_input
               description_input clock
             = (FinanceManager.AddedSuccessfully transaction_id, self') ->
          exists stored, amount_input = Returns stored /\ (0 < stored)%Q).
Proof.
  intros self amount category_input description_input clock Hfk Hle.
  apply Qle_bool_iff in Hle. split; [|split; [|split]].
  - unfold FinanceManager._add_income, FinanceManager.add_entry.
    now rewrite Hle.
  - unfold FinanceManager._add_expense, FinanceManager.add_entry.
    now rewrite Hle.
  - intros t category description. do 2 eexists.
    rewrite add_transaction_accepted; auto.
    + split; [reflexivity|]. simpl. apply in_or_app. right. now left.
    + now destruct t.
  - intros amount_input transaction_id self' [H | H];
      eapply manager_entries_are_positive; exact H.
Qed.

Lemma C3_witness :
  FinanceManager._add_expense (FinanceManager.mk fresh 1) (Returns (-5)%Q)
    "Food" EmptyString noon
  = (FinanceManager.AmountMustBePositive, FinanceManager.mk fresh 1).
Proof.
  apply (C3_amount_is_checked_by_the_manager (FinanceManager.mk fresh 1)
           (-5)%Q "Food" EmptyString noon); [reflexivity | discriminate].
Defined.




(** ** Listing transactions *)

(** C5 as stated fails: of two rows stamped in the same second the one
    inserted first comes first, so ties are not in descending id order. *)
Lemma C5_counterexample :
  exists first second,
    get_transactions same_second 1 20 None None = Returns [first; second]
    /\ Transaction.timestamp first = Transaction.timestamp second
    /\ Transaction.id first = 1
    /\ Transaction.id second = 2
    /\ ~ StronglySorted newest_first_then_id_desc [first; second].
Proof.
  do 2 eexists. split; [reflexivity|]. repeat split.
  intros Hs. inversion Hs as [|? ? _ Hall]; subst.
  inversion Hall as [|? ? [Hlt | [_ Hid]] _]; subst.
  - vm_compute in Hlt. discriminate.
  - vm_compute in Hid. discriminate.
Qed.

(** C5, amended.  For a positive limit the rows returned are those of
    the account asked for, later timestamp first, at most [limit] of
    them; rows with the same timestamp come in ascending id order
    (earliest inserted first). *)
Theorem C5_listing_is_ordered_and_bounded :
  forall (self : Connection) (account_id limit : Z)
         (start_date end_date : option string),
    ascending_ids (transactions self) ->
    0 < limit ->
    exists txs,
      get_transactions self account_id limit start_date end_date = Returns txs
      /\ StronglySorted newest_first_then_id_asc txs
      /\ Forall (fun tx => In tx (transactions self)
                           /\ Transaction.account_id tx = account_id) txs
      /\ Z.of_nat (List.length txs) <= limit.
Proof.
  intros self account_id limit start_date end_date Hasc Hlimit.
  eexists. split; [reflexivity|]. repeat split.
  - apply sql_limit_sorted, order_by_sorted, StronglySorted_filter. exact Hasc.
  - rewrite Forall_forall. intros tx Htx.
    apply sql_limit_incl in Htx.
    apply (Permutation_in _ (Permutation_sym (order_by_perm _))) in Htx.
    apply filter_In in Htx. destruct Htx as [Hin Hwhere]. split; auto.
    unfold where_clause in Hwhere.
    apply andb_prop in Hwhere. destruct Hwhere as [Hwhere _].
    apply andb_prop in Hwhere. destruct Hwhere as [Hacc _].
    now apply Z.eqb_eq.
  - apply sql_limit_length. lia.
Qed.

Lemma C5_witness :
  exists txs,
    get_transactions same_second 1 1 None None = Returns txs
    /\ StronglySorted newest_first_then_id_asc txs
    /\ Forall (fun tx => In tx (transactions same_second)
                         /\ Transaction.account_id tx = 1) txs
    /\ Z.of_nat (List.length txs) <= 1.
Proof.
  apply (C5_listing_is_ordered_and_bounded same_second 1 1 None None).
  - unfold ascending_ids. simpl. repeat constructor.
  - reflexivity.
Defined.

(** The rows of a connection of the program are in ascending id order. *)
Lemma reachable_ascending (conn : Connection) :
  reachable conn -> ascending_ids (transactions conn).
Proof. intros H. now apply reachable_invariant. Qed.




(** ** Date ranges *)

(** A row stamped exactly at a bound is kept by the query. *)
Lemma bounds_are_inclusive (account_id : Z) (bound : string)
    (row : Transaction.t) :
  Transaction.account_id row = account_id ->
  Transaction.timestamp row = bound ->
  where_clause account_id (Some bound) (Some bound) row = true.
Proof.
  intros Ha Ht. unfold where_clause. rewrite Ha, Ht, Z.eqb_refl. simpl.
  destruct bound; simpl; auto. now rewrite leb_refl.
Qed.

(** The end bound built from a date carries no offset, so a stored
    timestamp of that very second, which ends in [+0000], lies above it
    and is filtered out. *)
Lemma end_bound_without_offset_excludes (self : Connection)
    (account_id limit : Z) (start_date : option string) (bound : string)
    (row : Transaction.t) (txs : list Transaction.t) :
  bound <> EmptyString ->
  Transaction.timestamp row = (bound ++ "+0000")%string ->
  get_transactions self account_id limit start_date (Some bound) = Returns txs ->
  ~ In row txs.
Proof.
  intros Hne Hts Hget Hin. injection Hget as <-.
  apply sql_limit_incl in Hin.
  apply (Permutation_in _ (Permutation_sym (order_by_perm _))) in Hin.
  apply filter_In in Hin. destruct Hin as [_ Hwhere].
  unfold where_clause in Hwhere.
  apply andb_prop in Hwhere. destruct Hwhere as [_ Hend].
  destruct bound as [|c bound]; [contradiction|]. simpl truthy in Hend.
  cbv iota in Hend. simpl str_or_empty in Hend.
  rewrite Hts, leb_extension_false in Hend; discriminate.
Qed.

(** C6 fails on the code.  An expense is stored at 23:59:59 UTC of
    15 March 2024; both bounds typed as 2024-03-15 resolve to texts
    without the [+0000] offset of stored timestamps; with that end date
    the listing and the spending summary leave the expense out, although
    it lies within the named day. *)
Theorem C6_last_second_of_end_date_is_left_out :
  get_transactions late_entry 1 50 None None
  = Returns [Transaction.mk 1 1 "2024-03-15T23:59:59+0000" 40 "expense" "Food"
                            EmptyString]
  /\ FinanceManager._get_date_range "2024-03-15" "2024-03-15"
     = (Some "2024-03-15T00:00:00"%string, Some "2024-03-15T23:59:59"%string)
  /\ FinanceManager._view_transactions (FinanceManager.mk late_entry 1) 50
       EmptyString "2024-03-15"
     = Returns []
  /\ FinanceManager._view_spending_summary (FinanceManager.mk late_entry 1)
       EmptyString "2024-03-15"
     = Returns [].
Proof. repeat split; vm_compute; reflexivity. Qed.

(** ** The CSV export *)





(** How [str] writes some amounts. *)
Example float_repr_samples :
  map float_repr [1000; 250.5; 12.34; 0.1; 1 # 3]%Q
  = ["1000.0"; "250.5"; "12.34"; "0.1"; "0.3333333333333333"]%string.
Proof. vm_compute. reflexivity. Qed.

(** * Further properties of the store *)

(** ** Opening the database *)

Lemma initialize_has_account (conn : Connection) (clock : datetime) :
  accounts (_initialize_database conn clock) <> [].
Proof.
  unfold _initialize_database. destruct (_ =? 0) eqn:E.
  - simpl. intros H. apply app_eq_nil in H. destruct H; discriminate.
  - intros H. rewrite H in E. discriminate.
Qed.

(** X1.  Opening a database that was opened before changes nothing in it:
    the default account is created on the first opening only. *)
Theorem reopening_changes_nothing :
  forall (file : Connection) (first later : datetime),
    FinanceDatabase.__init__ (FinanceDatabase.__init__ file first) later
    = FinanceDatabase.__init__ file first
    /\ (accounts file = [] ->
        accounts (FinanceDatabase.__init__ file first)
        = [mkAccountRow (Z.max (seq_accounts file) 0 + 1) "Primary Account"
                        (current_time first)])
    /\ (accounts file <> [] ->
        accounts (FinanceDatabase.__init__ file first) = accounts file).
Proof.
  intros file first later. split; [|split].
  - unfold FinanceDatabase.__init__ at 1.
    pose proof (initialize_has_account (sqlite3_connect file) first) as Hne.
    fold (FinanceDatabase.__init__ file first) in Hne.
    assert (Hfk : foreign_keys (FinanceDatabase.__init__ file first) = false).
    { unfold FinanceDatabase.__init__.
      now destruct (initialize_keeps (sqlite3_connect file) first) as [_ ->]. }
    destruct (FinanceDatabase.__init__ file first) as [accs txs sa st fk].
    simpl in *. subst fk. unfold _initialize_database, sqlite3_connect. simpl.
    destruct accs; [contradiction | reflexivity].
  - intros Hnone. unfold FinanceDatabase.__init__, _initialize_database.
    simpl. rewrite Hnone. reflexivity.
  - intros Hsome.
    unfold FinanceDatabase.__init__, _initialize_database, sqlite3_connect.
    simpl. destruct (accounts file); [contradiction | reflexivity].
Qed.

(** ** One call of [add_transaction] *)

(** Either the call raised and left the connection as it was, or it
    appended exactly the row of its arguments under a new id. *)
Lemma add_transaction_effect self account_id amount ty category description
    clock :
  let r := add_transaction self account_id amount ty category description
             clock in
  (snd r = self /\ exists e, fst r = Raises e)
  \/ (fst r = Returns (autoincrement (seq_transactions self)
                         (map Transaction.id (transactions self)))
      /\ snd r
         = mkConnection (accounts self)
             (transactions self ++
                [Transaction.mk
                   (autoincrement (seq_transactions self)
                      (map Transaction.id (transactions self)))
                   account_id (current_time clock) amount ty category
                   description])
             (seq_accounts self)
             (autoincrement (seq_transactions self)
                (map Transaction.id (transactions self)))
             (foreign_keys self)
      /\ (ty = "income"%string \/ ty = "expense"%string)).
Proof.
  unfold add_transaction, insert_transaction. rewrite type_check_agrees.
  destruct (str_in ty _) eqn:Hty; simpl.
  - destruct (foreign_keys self && negb (account_exists self account_id));
      simpl.
    + left. split; eauto.
    + right. repeat split. now apply str_in_types.
  - left. split; eauto.
Qed.

(** X2.  A transaction entered for one account leaves every other
    account's balance, listing and spending summary exactly as they were. *)
Theorem other_accounts_are_untouched :
  forall (self : Connection) (account_id other : Z) (amount : Q)
         (ty category description : string) (clock : datetime)
         (limit : Z) (start_date end_date : option string),
    other <> account_id ->
    let self' := snd (add_transaction self account_id amount ty category
                        description clock) in
    get_balance self' other = get_balance self other
    /\ get_transactions self' other limit start_date end_date
       = get_transactions self other limit start_date end_date
    /\ get_spending_by_category self' other start_date end_date
       = get_spending_by_category self other start_date end_date.
Proof.
  intros self account_id other amount ty category description clock limit
         start_date end_date Hneq self'.
  destruct (add_transaction_effect self account_id amount ty category
              description clock) as [[Hsame _] | (_ & Hnew & _)];
    subst self'.
  - rewrite Hsame. auto.
  - rewrite Hnew.
    assert (Hno : (account_id =? other) = false) by (apply Z.eqb_neq; auto).
    unfold get_balance, get_transactions, get_spending_by_category,
      where_clause.
    simpl. rewrite !filter_app. simpl. rewrite Hno. simpl.
    rewrite !app_nil_r. auto.
Qed.

Lemma other_accounts_witness :
  get_balance
    (snd (add_transaction same_second 2 99 "expense" "Rent" EmptyString noon)) 1
  = get_balance same_second 1.
Proof.
  apply (other_accounts_are_untouched same_second 2 1 99 "expense" "Rent"
           EmptyString noon 20 None None).
  discriminate.
Defined.

(** ** Identifiers *)

Lemma autoincrement_positive (seq : Z) (ids : list Z) :
  0 < autoincrement seq ids.
Proof.
  unfold autoincrement.
  assert (0 <= fold_right Z.max 0 ids) by (induction ids; simpl; lia). lia.
Qed.

Lemma strictly_ascending_snoc {A : Type} (key : A -> Z) (l : list A) (x : A) :
  StronglySorted (fun a b => key a < key b) l ->
  Forall (fun a => key a < key x) l ->
  StronglySorted (fun a b => key a < key b) (l ++ [x]).
Proof.
  induction 1 as [|y l Hl IH Hy]; intros Hx; simpl.
  - repeat constructor.
  - inversion Hx; subst. constructor; auto.
    apply Forall_app. split; auto.
Qed.

Lemma strictly_ascending_NoDup {A : Type} (key : A -> Z) (l : list A) :
  StronglySorted (fun a b => key a < key b) l -> NoDup (map key l).
Proof.
  induction 1 as [|y l Hl IH Hy]; simpl; constructor; auto.
  rewrite in_map_iff. intros (z & Hz & Hin).
  rewrite Forall_forall in Hy. specialize (Hy z Hin). lia.
Qed.

Lemma insert_account_ascending conn name created_at :
  StronglySorted (fun a b => acc_id a < acc_id b) (accounts conn) ->
  StronglySorted (fun a b => acc_id a < acc_id b)
    (accounts (snd (insert_account conn name created_at))).
Proof.
  intros H. simpl. apply strictly_ascending_snoc; auto.
  destruct (autoincrement_fresh (seq_accounts conn)
              (map acc_id (accounts conn))) as [_ Hf].
  rewrite Forall_map in Hf. exact Hf.
Qed.

(** The ids of a connection of the program: ascending in both tables and
    all above 0. *)
Lemma reachable_ids (conn : Connection) :
  reachable conn ->
  StronglySorted (fun a b => acc_id a < acc_id b) (accounts conn)
  /\ Forall (fun a => 0 < acc_id a) (accounts conn)
  /\ Forall (fun r => 0 < Transaction.id r) (transactions conn).
Proof.
  assert (Hinit : forall c clock,
            StronglySorted (fun a b => acc_id a < acc_id b) (accounts c) ->
            Forall (fun a => 0 < acc_id a) (accounts c) ->
            StronglySorted (fun a b => acc_id a < acc_id b)
              (accounts (FinanceDatabase.__init__ c clock))
            /\ Forall (fun a => 0 < acc_id a)
                 (accounts (FinanceDatabase.__init__ c clock))
            /\ transactions (FinanceDatabase.__init__ c clock)
               = transactions c).
  { intros c clock Hs Hp.
    unfold FinanceDatabase.__init__, _initialize_database.
    destruct (_ =? 0); auto. repeat split.
    - now apply insert_account_ascending.
    - simpl. apply Forall_app. split; auto.
      repeat constructor. simpl. apply autoincrement_positive. }
  induction 1 as [clock | conn clock _ (IHs & IHp & IHt)
                 | conn a amount ty c d clock _ (IHs & IHp & IHt)
                 | conn name clock _ (IHs & IHp & IHt)].
  - destruct (Hinit new_file clock) as (Hs & Hp & Ht);
      [constructor | constructor |].
    rewrite Ht. repeat split; auto.
  - destruct (Hinit conn clock) as (Hs & Hp & Ht); auto.
    rewrite Ht. repeat split; auto.
  - destruct (add_transaction_effect conn a amount ty c d clock)
      as [[-> _] | (_ & -> & _)]; auto.
    simpl. repeat split; auto.
    apply Forall_app. split; auto.
    repeat constructor. simpl. apply autoincrement_positive.
  - repeat split.
    + now apply insert_account_ascending.
    + simpl. apply Forall_app. split; auto.
      repeat constructor. simpl. apply autoincrement_positive.
    + exact IHt.
Qed.

(** X3.  In every database the program can reach, account ids and
    transaction ids are positive and no id occurs twice in its table. *)
Theorem ids_are_positive_and_unique :
  forall conn : Connection,
    reachable conn ->
    NoDup (map acc_id (accounts conn))
    /\ NoDup (map Transaction.id (transactions conn))
    /\ Forall (fun a => 0 < acc_id a) (accounts conn)
    /\ Forall (fun r => 0 < Transaction.id r) (transactions conn).
Proof.
  intros conn H.
  destruct (reachable_ids conn H) as (Hs & Hp & Ht).
  destruct (reachable_invariant conn H) as [_ Hasc].
  repeat split; auto.
  - now apply strictly_ascending_NoDup.
  - now apply (strictly_ascending_NoDup Transaction.id).
Qed.

Lemma ids_witness :
  NoDup (map acc_id (accounts same_second))
  /\ NoDup (map Transaction.id (transactions same_second))
  /\ Forall (fun a => 0 < acc_id a) (accounts same_second)
  /\ Forall (fun r => 0 < Transaction.id r) (transactions same_second).
Proof.
  apply (ids_are_positive_and_unique same_second).
  unfold same_second. cbn [add_transactions].
  do 2 apply reach_add_transaction. apply (reach_new noon).
Defined.



(** ** Spending by category *)

Section Spending.

Lemma group_add_total c a groups :
  (total (map snd (group_add c a groups)) == total (map snd groups) + a)%Q.
Proof.
  induction groups as [|[c' t] rest IH]; simpl; [ring|].
  destruct (String.compare c c'); simpl; try rewrite IH; ring.
Qed.

Lemma group_add_keys c a groups k :
  In k (map fst (group_add c a groups)) <-> k = c \/ In k (map fst groups).
Proof.
  induction groups as [|[c' t] rest IH]; simpl; [intuition|].
  destruct (String.compare c c') eqn:E; simpl.
  - apply String.compare_eq_iff in E. subst. intuition.
  - intuition.
  - rewrite IH. intuition.
Qed.

Lemma group_add_sorted c a groups :
  StronglySorted strictly_by_category groups ->
  StronglySorted strictly_by_category (group_add c a groups).
Proof.
  induction 1 as [|[c' t] rest Hrest IH Hall]; simpl.
  - repeat constructor.
  - destruct (String.compare c c') eqn:E.
    + constructor; auto.
    + constructor; [now constructor|]. constructor; [exact E|].
      eapply Forall_impl; [|exact Hall]. unfold strictly_by_category. simpl.
      intros y Hy. eapply compare_lt_trans; eauto.
    + constructor; auto.
      rewrite Forall_forall in Hall |- *. intros [k v] Hk.
      assert (Hin : In k (map fst (group_add c a rest)))
        by (apply in_map_iff; exists (k, v); auto).
      apply group_add_keys in Hin. destruct Hin as [-> | Hin].
      * unfold strictly_by_category. simpl.
        rewrite String.compare_antisym, E. reflexivity.
      * apply in_map_iff in Hin. destruct Hin as ([k' v'] & Hk' & Hin).
        simpl in Hk'. subst k'. exact (Hall _ Hin).
Qed.

Lemma group_fold_spec rows : forall groups,
  StronglySorted strictly_by_category groups ->
  let result :=
    fold_left (fun g r => group_add (Transaction.category r)
                                    (Transaction.amount r) g) rows groups in
  StronglySorted strictly_by_category result
  /\ (total (map snd result)
      == total (map snd groups) + total (map Transaction.amount rows))%Q
  /\ forall k, In k (map fst result) <->
               In k (map fst groups) \/ In k (map Transaction.category rows).
Proof.
  induction rows as [|r rows IH]; intros groups Hs; simpl.
  - repeat split; auto; try ring; intuition.
  - destruct (IH (group_add (Transaction.category r) (Transaction.amount r)
                    groups) (group_add_sorted _ _ _ Hs)) as (H1 & H2 & H3).
    repeat split; auto.
    + rewrite H2, group_add_total. ring.
    + rewrite H3, group_add_keys. intuition.
    + rewrite H3, group_add_keys. intuition.
Qed.

End Spending.

Lemma get_spending_spec :
  forall (self : Connection) (account_id : Z)
         (start_date end_date : option string),
    let expenses :=
      filter (fun r => where_clause account_id start_date end_date r
                       && String.eqb (Transaction.type r) "expense")
             (transactions self) in
    exists spending,
      get_spending_by_category self account_id start_date end_date
      = Returns spending
      /\ StronglySorted
           (fun x y => String.compare (fst x) (fst y) = Lt) spending
      /\ (total (map snd spending)
          == total (map Transaction.amount expenses))%Q
      /\ forall category,
          In category (map fst spending) <->
          exists r, In r expenses /\ Transaction.category r = category.
Proof.
  intros self account_id start_date end_date expenses.
  eexists. split; [reflexivity|].
  destruct (group_fold_spec expenses [] (SSorted_nil _)) as (H1 & H2 & H3).
  fold expenses. unfold group_by_category. repeat split.
  - exact H1.
  - rewrite H2. simpl. ring.
  - intros Hin. apply H3 in Hin. destruct Hin as [[] | Hin].
    apply in_map_iff in Hin. destruct Hin as (r & Hr & Hin). eauto.
  - intros (r & Hin & Hr). apply H3. right.
    apply in_map_iff. eauto.
Qed.

(** X5.  The spending summary of an account lists each category of its
    expenses within the dates once, in ascending order, and no other
    category; its amounts add up to the total of those expenses. *)
Theorem spending_by_category_is_exact :
  forall (self : Connection) (account_id : Z)
         (start_date end_date : option string),
    let expenses :=
      filter (fun r => where_clause account_id start_date end_date r
                       && String.eqb (Transaction.type r) "expense")
             (transactions self) in
    exists spending,
      get_spending_by_category self account_id start_date end_date
      = Returns spending
      /\ StronglySorted
           (fun x y => String.compare (fst x) (fst y) = Lt) spending
      /\ (total (map snd spending)
          == total (map Transaction.amount expenses))%Q
      /\ forall category,
          In category (map fst spending) <->
          exists r, In r expenses /\ Transaction.category r = category.
Proof. exact get_spending_spec. Qed.

Lemma filter_twice {A : Type} (f g : A -> bool) (l : list A) :
  filter f (filter g l) = filter (fun x => g x && f x) l.
Proof.
  induction l as [|x l IH]; simpl; auto.
  destruct (g x); simpl; [destruct (f x)|]; now rewrite IH.
Qed.



(** ** The account list and the switch *)

Lemma accounts_with_balance_spec self rows :
  exists accs,
    accounts_with_balance self rows = Returns accs
    /\ map Account.id accs = map acc_id rows
    /\ map Account.name accs = map acc_name rows
    /\ Forall (fun acc => get_balance self (Account.id acc)
                          = Returns (Account.balance acc)) accs.
Proof.
  induction rows as [|row rows (accs & Hr & Hid & Hname & Hbal)]; simpl.
  - exists []. repeat split; auto.
  - rewrite Hr. eexists. split; [reflexivity|]. simpl.
    rewrite Hid, Hname. repeat split; auto.
Qed.

(** X7.  On every database the program can reach, [get_accounts] returns
    one account per stored account, in strictly ascending id order, each
    with its name and with the balance [get_balance] gives for it. *)
Theorem get_accounts_lists_every_account :
  forall self : Connection,
    reachable self ->
    exists accs,
      get_accounts self = Returns accs
      /\ map Account.id accs = map acc_id (accounts self)
      /\ map Account.name accs = map acc_name (accounts self)
      /\ StronglySorted Z.lt (map Account.id accs)
      /\ Forall (fun acc => get_balance self (Account.id acc)
                            = Returns (Account.balance acc)) accs.
Proof.
  intros self Hreach.
  destruct (accounts_with_balance_spec self (accounts self))
    as (accs & Hr & Hid & Hname & Hbal).
  exists accs. repeat split; auto.
  rewrite Hid. destruct (reachable_ids self Hreach) as (Hs & _).
  clear - Hs. induction Hs as [|a l Hl IH Ha]; simpl; constructor; auto.
  now rewrite Forall_map.
Qed.

Lemma get_accounts_witness :
  exists accs,
    get_accounts same_second = Returns accs
    /\ map Account.id accs = map acc_id (accounts same_second)
    /\ map Account.name accs = map acc_name (accounts same_second)
    /\ StronglySorted Z.lt (map Account.id accs)
    /\ Forall (fun acc => get_balance same_second (Account.id acc)
                          = Returns (Account.balance acc)) accs.
Proof.
  apply (get_accounts_lists_every_account same_second).
  unfold same_second. cbn [add_transactions].
  do 2 apply reach_add_transaction. apply (reach_new noon).
Defined.

Lemma existsb_over_map {A B : Type} (p : B -> bool) (f : A -> B) (l : list A) :
  existsb p (map f l) = existsb (fun x => p (f x)) l.
Proof. induction l as [|x l IH]; simpl; congruence. Qed.

Lemma switch_account_cases :
  forall (self : FinanceManager.t) (target : Z),
    (account_exists (FinanceManager.db self) target = true ->
     FinanceManager.switch_account self target
     = (FinanceManager.SwitchedToAccount target,
        FinanceManager.mk (FinanceManager.db self) target))
    /\ (account_exists (FinanceManager.db self) target = false ->
        FinanceManager.switch_account self target
        = (FinanceManager.InvalidAccountId, self)).
Proof.
  intros self id.
  destruct (accounts_with_balance_spec (FinanceManager.db self)
              (accounts (FinanceManager.db self)))
    as (accs & Hr & Hid & _).
  assert (Hex : existsb (fun acc => Account.id acc =? id) accs
                = account_exists (FinanceManager.db self) id).
  { unfold account_exists.
    rewrite <- (existsb_over_map (fun i => i =? id) Account.id).
    rewrite <- (existsb_over_map (fun i => i =? id) acc_id).
    now rewrite Hid. }
  unfold FinanceManager.switch_account, get_accounts. rewrite Hr, Hex.
  split; intros ->; reflexivity.
Qed.

(** X8.  Switching succeeds exactly for the id of a stored account: the
    current account becomes that id; for any other id the manager stays
    as it was, so the current account never leaves the stored accounts
    through a switch. *)
Theorem switch_reaches_existing_accounts_only :
  forall (self : FinanceManager.t) (target : Z),
    (account_exists (FinanceManager.db self) target = true ->
     FinanceManager.switch_account self target
     = (FinanceManager.SwitchedToAccount target,
        FinanceManager.mk (FinanceManager.db self) target))
    /\ (account_exists (FinanceManager.db self) target = false ->
        FinanceManager.switch_account self target
        = (FinanceManager.InvalidAccountId, self)).
Proof. exact switch_account_cases. Qed.

Lemma reopening_witness :
  accounts (FinanceDatabase.__init__ new_file noon)
  = [mkAccountRow 1 "Primary Account" (current_time noon)]
  /\ accounts (FinanceDatabase.__init__ same_second half_past_two)
     = accounts same_second.
Proof.
  split.
  - apply (proj1 (proj2 (reopening_changes_nothing new_file noon noon))).
    reflexivity.
  - apply (proj2 (proj2 (reopening_changes_nothing same_second half_past_two
                           noon))).
    discriminate.
Defined.

Lemma switch_witness :
  FinanceManager.switch_account (FinanceManager.mk same_second 1) 7
  = (FinanceManager.InvalidAccountId, FinanceManager.mk same_second 1).
Proof.
  apply (proj2 (switch_reaches_existing_accounts_only
                  (FinanceManager.mk same_second 1) 7)).
  reflexivity.
Defined.

(** ** Creating an account *)

Lemma account_exists_after_insert conn name created_at account_id :
  account_exists (snd (insert_account conn name created_at)) account_id
  = account_exists conn account_id
    || (autoincrement (seq_accounts conn) (map acc_id (accounts conn))
        =? account_id).
Proof.
  unfold account_exists. simpl. rewrite existsb_app. simpl.
  now rewrite orb_false_r.
Qed.

Lemma fresh_account_id_is_unused conn :
  account_exists conn
    (autoincrement (seq_accounts conn) (map acc_id (accounts conn))) = false.
Proof.
  unfold account_exists.
  destruct (existsb _ _) eqn:E; auto.
  apply existsb_exists in E. destruct E as (a & Hin & Heq).
  apply Z.eqb_eq in Heq.
  destruct (autoincrement_fresh (seq_accounts conn)
              (map acc_id (accounts conn))) as [_ Hf].
  rewrite Forall_map, Forall_forall in Hf. specialize (Hf a Hin). lia.
Qed.

(** X9.  On a store whose transactions all name existing accounts, a new
    account starts with no transaction and balance 0, and creating it
    changes no transaction and no other balance. *)
Theorem new_account_starts_empty :
  forall (self : Connection) (name : string) (clock : datetime)
         (limit : Z) (start_date end_date : option string),
    referential_integrity self ->
    exists new_id self',
      add_account self name clock = (Returns new_id, self')
      /\ transactions self' = transactions self
      /\ get_balance self' new_id = Returns 0%Q
      /\ get_transactions self' new_id limit start_date end_date = Returns []
      /\ (forall other, get_balance self' other = get_balance self other)
      /\ referential_integrity self'.
Proof.
  intros self name clock limit start_date end_date Hri.
  do 2 eexists. split; [reflexivity|].
  set (new_id := autoincrement _ _).
  assert (Hnone : no_transactions_of new_id self).
  { unfold no_transactions_of, referential_integrity in *.
    eapply Forall_impl; [|exact Hri]. simpl. intros r Hr Heq.
    rewrite Heq in Hr. subst new_id.
    now rewrite fresh_account_id_is_unused in Hr. }
  repeat split.
  - unfold get_balance. simpl.
    fold (rows_of new_id (transactions self)).
    now rewrite (rows_of_none _ _ Hnone).
  - unfold get_transactions. simpl.
    replace (filter _ (transactions self)) with (@nil Transaction.t);
      [unfold sql_limit; simpl; destruct (limit <? 0); auto;
       now rewrite firstn_nil|].
    symmetry. unfold no_transactions_of in Hnone.
    induction Hnone as [|r rows Hr _ IH]; simpl; auto.
    unfold where_clause at 1. apply Z.eqb_neq in Hr. now rewrite Hr.
  - unfold referential_integrity in *. simpl.
    eapply Forall_impl; [|exact Hri]. simpl. intros r Hr.
    unfold account_exists in *. simpl. rewrite existsb_app, Hr. reflexivity.
Qed.

Lemma new_account_witness :
  exists new_id self',
    add_account same_second "Savings" half_past_two = (Returns new_id, self')
    /\ transactions self' = transactions same_second
    /\ get_balance self' new_id = Returns 0%Q
    /\ get_transactions self' new_id 20 None None = Returns []
    /\ (forall other, get_balance self' other = get_balance same_second other)
    /\ referential_integrity self'.
Proof.
  apply (new_account_starts_empty same_second "Savings" half_past_two 20
           None None).
  unfold referential_integrity. simpl. repeat constructor.
Defined.

(** ** What the menus enter *)

Lemma default_categories_named (kind : string) :
  Forall (fun c => c <> EmptyString) (DEFAULT_CATEGORIES kind).
Proof.
  unfold DEFAULT_CATEGORIES.
  destruct (String.eqb kind "income"); [repeat constructor; discriminate|].
  destruct (String.eqb kind "expense"); repeat constructor; discriminate.
Qed.

Lemma choose_category_named (kind category_input : string) :
  FinanceManager.choose_category kind category_input <> EmptyString.
Proof.
  unfold FinanceManager.choose_category.
  destruct (isdigit _ && _ && _) eqn:E.
  - apply andb_prop in E. destruct E as [E Hhi].
    apply andb_prop in E. destruct E as [_ Hlo].
    apply Z.leb_le in Hhi, Hlo.
    pose proof (default_categories_named kind) as Hall.
    rewrite Forall_forall in Hall. apply Hall, nth_In. lia.
  - destruct (strip category_input); discriminate.
Qed.



Lemma account_exists_same_accounts c1 c2 account_id :
  accounts c1 = accounts c2 ->
  account_exists c1 account_id = account_exists c2 account_id.
Proof. unfold account_exists. now intros ->. Qed.

(** What a round of [_add_income] or [_add_expense] leaves behind. *)
Lemma add_entry_effect kind self amount_input category_input description_input
    clock :
  let r := FinanceManager.add_entry kind self amount_input category_input
             description_input clock in
  (snd r = self /\ forall id, fst r <> FinanceManager.AddedSuccessfully id)
  \/ exists amount transaction_id,
      amount_input = Returns amount
      /\ (0 < amount)%Q
      /\ (kind = "income"%string \/ kind = "expense"%string)
      /\ fst r = FinanceManager.AddedSuccessfully transaction_id
      /\ ~ In transaction_id
           (map Transaction.id (transactions (FinanceManager.db self)))
      /\ snd r
         = FinanceManager.mk
             (mkConnection (accounts (FinanceManager.db self))
                (transactions (FinanceManager.db self) ++
                   [Transaction.mk transaction_id
                      (FinanceManager.current_account self)
                      (current_time clock) amount kind
                      (FinanceManager.choose_category kind category_input)
                      (strip description_input)])
                (seq_accounts (FinanceManager.db self)) transaction_id
                (foreign_keys (FinanceManager.db self)))
             (FinanceManager.current_account self).
Proof.
  unfold FinanceManager.add_entry.
  destruct amount_input as [amount | e].
  2:{ left. destruct e; split; auto; intros id; discriminate. }
  destruct (Qle_bool amount 0) eqn:Hpos.
  { left. split; auto. intros id; discriminate. }
  assert (Hlt : (0 < amount)%Q).
  { apply Qnot_le_lt. intros H. apply Qle_bool_iff in H. congruence. }
  destruct (add_transaction_effect (FinanceManager.db self)
              (FinanceManager.current_account self) amount kind
              (FinanceManager.choose_category kind category_input)
              (strip description_input) clock)
    as [[Hsame [e He]] | (Hid & Hnew & Hkind)].
  - left.
    destruct (add_transaction _ _ _ _ _ _ _) as [res db']. simpl in *.
    subst. destruct self as [d c]. simpl.
    destruct e; split; auto; intros id; discriminate.
  - right. exists amount. eexists.
    destruct (add_transaction _ _ _ _ _ _ _) as [res db']. simpl in *.
    subst. repeat split; auto.
    intros Hin.
    destruct (autoincrement_fresh (seq_transactions (FinanceManager.db self))
                (map Transaction.id (transactions (FinanceManager.db self))))
      as [_ Hf].
    rewrite Forall_forall in Hf. specialize (Hf _ Hin). simpl in Hf. lia.
Qed.



(** ** The menus as a whole *)

Section Menus.

Lemma add_entry_keeps_order kind self amount_input category_input
    description_input clock :
  manager_in_order self ->
  manager_in_order
    (snd (FinanceManager.add_entry kind self amount_input category_input
            description_input clock)).
Proof.
  intros ((Hri & Hwell & Hnames) & Hcur & Hone).
  destruct (add_entry_effect kind self amount_input category_input
              description_input clock)
    as [[-> _] | (amount & id & _ & Hpos & Hkind & _ & _ & ->)].
  - repeat split; assumption.
  - unfold manager_in_order, store_in_order, referential_integrity in *.
    simpl. repeat split; auto.
    + apply Forall_app. split.
      * eapply Forall_impl; [|exact Hri]. auto.
      * repeat constructor. exact Hcur.
    + apply Forall_app. split; auto.
      constructor; [|constructor].
      unfold well_entered. simpl. repeat split; auto.
      apply choose_category_named.
Qed.

Lemma create_account_keeps_order self name_input clock :
  manager_in_order self ->
  manager_in_order (snd (FinanceManager.create_account self name_input clock)).
Proof.
  intros ((Hri & Hwell & Hnames) & Hcur & Hone).
  unfold FinanceManager.create_account.
  destruct (strip name_input) as [|c name] eqn:Hname; simpl.
  - repeat split; assumption.
  - unfold manager_in_order, store_in_order, referential_integrity in *.
    simpl. unfold account_exists in *. simpl.
    repeat split; auto; try (rewrite existsb_app, ?Hcur, ?Hone; reflexivity).
    + eapply Forall_impl; [|exact Hri]. simpl. intros r Hr.
      now rewrite existsb_app, Hr.
    + apply Forall_app. split; auto. repeat constructor. discriminate.
Qed.

Lemma switch_account_keeps_order self target :
  manager_in_order self ->
  manager_in_order (snd (FinanceManager.switch_account self target)).
Proof.
  intros Hm.
  destruct (switch_account_cases self target) as [Hyes Hno].
  destruct (account_exists (FinanceManager.db self) target) eqn:E.
  - rewrite Hyes by reflexivity. destruct Hm as (Hs & _ & Hone).
    simpl. split; [exact Hs | split; [exact E | exact Hone]].
  - rewrite Hno by reflexivity. exact Hm.
Qed.

Lemma manage_accounts_keeps_order actions : forall self,
  manager_in_order self -> manager_in_order (_manage_accounts self actions).
Proof.
  unfold _manage_accounts.
  induction actions as [|a actions IH]; intros self Hm; simpl; auto.
  apply IH. destruct a as [[target | e] | name_input clock |]; simpl; auto.
  - now apply switch_account_keeps_order.
  - now apply create_account_keeps_order.
Qed.

Lemma display_menu_keeps_order rounds : forall self,
  manager_in_order self -> manager_in_order (display_menu self rounds).
Proof.
  unfold display_menu.
  induction rounds as [|a rounds IH]; intros self Hm; simpl; auto.
  apply IH. destruct a; simpl; auto.
  - now apply add_entry_keeps_order.
  - now apply add_entry_keeps_order.
  - now apply manage_accounts_keeps_order.
Qed.

Lemma manager_init_in_order file clock :
  store_in_order file ->
  account_exists file 1 = true \/ (accounts file = [] /\ seq_accounts file <= 0) ->
  manager_in_order (FinanceManager.__init__ file clock).
Proof.
  intros (Hri & Hwell & Hnames) Hone.
  unfold FinanceManager.__init__, FinanceDatabase.__init__,
    _initialize_database, sqlite3_connect. simpl.
  destruct (accounts file) as [|a l] eqn:Hacc.
  - simpl. unfold manager_in_order, store_in_order, referential_integrity,
      account_exists in *. simpl.
    rewrite Hacc in *. simpl in *.
    assert (Hid : autoincrement (seq_accounts file) [] = 1).
    { unfold autoincrement. simpl.
      destruct Hone as [Hone | [_ Hseq]]; [discriminate | lia]. }
    rewrite Hid. simpl. repeat split; auto.
    + eapply Forall_impl; [|exact Hri]. simpl. intros r Hr. discriminate.
    + repeat constructor. discriminate.
  - replace (Z.of_nat (List.length (a :: l)) =? 0) with false
      by (symmetry; apply Z.eqb_neq; simpl; lia).
    unfold manager_in_order, store_in_order, referential_integrity,
      account_exists in *. simpl. rewrite Hacc in *.
    destruct Hone as [Hone | [Hnil _]]; [|discriminate].
    repeat split; auto.
Qed.

Lemma session_keeps_order file clock rounds :
  store_in_order file ->
  account_exists file 1 = true \/ (accounts file = [] /\ seq_accounts file <= 0) ->
  store_in_order
    (FinanceManager.db
       (display_menu (FinanceManager.__init__ file clock) rounds))
  /\ account_exists
       (FinanceManager.db
          (display_menu (FinanceManager.__init__ file clock) rounds)) 1
     = true.
Proof.
  intros Hs Hone.
  destruct (display_menu_keeps_order rounds _
              (manager_init_in_order file clock Hs Hone)) as (H1 & _ & H3).
  auto.
Qed.

End Menus.

(** X12.  Whatever is typed at the menus, over any number of sessions
    starting from a new database file, every stored transaction names an
    existing account, has an amount above 0, the type income or expense
    and a category that is not empty, and every account has a name. *)
Theorem menus_keep_the_store_in_order :
  forall sessions : list (datetime * list menu_action),
    let final := run_sessions new_file sessions in
    referential_integrity final
    /\ Forall well_entered (transactions final)
    /\ Forall (fun a => acc_name a <> EmptyString) (accounts final).
Proof.
  intros sessions.
  assert (Hgen : forall file,
            store_in_order file ->
            account_exists file 1 = true
            \/ (accounts file = [] /\ seq_accounts file <= 0) ->
            store_in_order (run_sessions file sessions)).
  { induction sessions as [|[clock rounds] rest IH]; intros file Hs Hone;
      simpl; auto.
    destruct (session_keeps_order file clock rounds Hs Hone) as [Hs' Hone'].
    apply IH; auto. }
  apply Hgen.
  - repeat split; constructor.
  - right. split; [reflexivity | simpl; lia].
Qed.

(** ** More on listings: dates and limits *)

Section Listings.

Lemma leb_cases (s1 s2 : string) :
  String.leb s1 s2 = true <-> String.ltb s1 s2 = true \/ s1 = s2.
Proof.
  unfold String.leb, String.ltb. split.
  - destruct (String.compare s1 s2) eqn:E; auto; try discriminate.
    right. now apply String.compare_eq_iff.
  - intros [H | ->]; [|now rewrite compare_refl].
    destruct (String.compare s1 s2); auto; discriminate.
Qed.

Lemma leb_trans (s1 s2 s3 : string) :
  String.leb s1 s2 = true -> String.leb s2 s3 = true ->
  String.leb s1 s3 = true.
Proof.
  rewrite !leb_cases. intros [H12 | ->] [H23 | ->]; auto.
  left. eapply ltb_trans; eauto.
Qed.

Lemma ltb_false_leb (s1 s2 : string) :
  String.ltb s1 s2 = false -> String.leb s2 s1 = true.
Proof.
  intros H. apply leb_cases. apply ltb_false_cases in H.
  destruct H; auto.
Qed.

Lemma order_insert_not_older r l :
  StronglySorted not_older l -> StronglySorted not_older (order_insert r l).
Proof.
  induction 1 as [|x l Hl IH Hx]; simpl; [repeat constructor|].
  destruct (String.ltb (Transaction.timestamp r) (Transaction.timestamp x))
    eqn:Hlt.
  - constructor; auto. rewrite <- order_insert_perm. constructor; auto.
    apply leb_cases. now left.
  - apply ltb_false_leb in Hlt.
    constructor; [now constructor|]. constructor; auto.
    eapply Forall_impl; [|exact Hx]. unfold not_older. intros z Hz.
    eapply leb_trans; eauto.
Qed.

Lemma order_by_not_older l :
  StronglySorted not_older (order_by_timestamp_desc l).
Proof.
  induction l as [|x l IH]; simpl; [constructor|].
  now apply order_insert_not_older.
Qed.

Lemma order_insert_at_head r l :
  Forall (fun z => String.ltb (Transaction.timestamp r)
                              (Transaction.timestamp z) = false) l ->
  order_insert r l = r :: l.
Proof. destruct 1 as [|x l Hx _]; simpl; auto. now rewrite Hx. Qed.

(** Leaving rows out of a sorted listing and inserting commute. *)
Lemma filter_order_insert (f : Transaction.t -> bool) r l :
  StronglySorted not_older l ->
  filter f (order_insert r l)
  = if f r then order_insert r (filter f l) else filter f l.
Proof.
  induction 1 as [|x l Hl IH Hx]; simpl.
  - now destruct (f r).
  - destruct (String.ltb (Transaction.timestamp r) (Transaction.timestamp x))
      eqn:Hlt; simpl.
    + destruct (f x); simpl; rewrite IH; destruct (f r); auto.
      now rewrite Hlt.
    + destruct (f r); auto.
      symmetry. apply order_insert_at_head.
      assert (Hall : Forall (fun z => String.ltb (Transaction.timestamp r)
                                        (Transaction.timestamp z) = false)
                            (x :: l)).
      { constructor; auto.
        eapply Forall_impl; [|exact Hx]. unfold not_older. intros z Hz.
        destruct (String.ltb (Transaction.timestamp r)
                             (Transaction.timestamp z)) eqn:Hrz; auto.
        assert (Hrx : String.ltb (Transaction.timestamp r)
                                 (Transaction.timestamp x) = true).
        { apply leb_cases in Hz. destruct Hz as [Hz | Hz].
          - eapply ltb_trans; eauto.
          - now rewrite <- Hz. }
        congruence. }
      clear - Hall.
      change (if f x then x :: filter f l else filter f l)
        with (filter f (x :: l)).
      rewrite Forall_forall in Hall |- *.
      intros z Hz. apply Hall. apply filter_In in Hz. tauto.
Qed.

Lemma filter_order_by (f : Transaction.t -> bool) l :
  filter f (order_by_timestamp_desc l) = order_by_timestamp_desc (filter f l).
Proof.
  induction l as [|x l IH]; simpl; auto.
  rewrite filter_order_insert by apply order_by_not_older.
  rewrite IH. now destruct (f x).
Qed.

Lemma sql_limit_all {A : Type} (n : Z) (l : list A) :
  n < 0 \/ Z.of_nat (List.length l) <= n -> sql_limit n l = l.
Proof.
  intros H. unfold sql_limit. destruct (n <? 0) eqn:E; auto.
  apply Z.ltb_ge in E. apply firstn_all2. lia.
Qed.

Lemma filter_length_le {A : Type} (f : A -> bool) (l : list A) :
  (List.length (filter f l) <= List.length l)%nat.
Proof.
  induction l as [|x l IH]; simpl; auto. destruct (f x); simpl; lia.
Qed.


End Listings.

(** X13.  Without a limit, or with a limit that all rows fit in, the
    listing for a date range is the listing without dates with the rows
    outside the range left out: the dates never change the order. *)
Theorem date_range_restricts_the_listing :
  forall (self : Connection) (account_id limit : Z)
         (start_date end_date : option string),
    limit < 0 \/ Z.of_nat (List.length (transactions self)) <= limit ->
    exists every,
      get_transactions self account_id limit None None = Returns every
      /\ get_transactions self account_id limit start_date end_date
         = Returns (filter (within_dates start_date end_date) every).
Proof.
  intros self account_id limit start_date end_date Hlimit.
  assert (Hfit : forall f,
            sql_limit limit
              (order_by_timestamp_desc (filter f (transactions self)))
            = order_by_timestamp_desc (filter f (transactions self))).
  { intros f. apply sql_limit_all. destruct Hlimit as [H | H]; auto. right.
    rewrite <- (Permutation_length (order_by_perm _)).
    pose proof (filter_length_le f (transactions self)). lia. }
  eexists. split; [reflexivity|]. unfold get_transactions.
  rewrite !Hfit, filter_order_by, filter_twice. do 2 f_equal.
  apply filter_ext. intros r. unfold within_dates, where_clause. simpl.
  rewrite Z.eqb_refl, andb_true_r. simpl.
  now rewrite andb_true_r, andb_assoc.
Qed.

Lemma date_range_witness :
  exists every,
    get_transactions same_second 1 (-1) None None = Returns every
    /\ get_transactions same_second 1 (-1)
         (Some "2024-03-15T00:00:00"%string) None
       = Returns (filter (within_dates (Some "2024-03-15T00:00:00"%string) None)
                         every).
Proof.
  apply (date_range_restricts_the_listing same_second 1 (-1)
           (Some "2024-03-15T00:00:00"%string) None).
  left. lia.
Defined.





(** ** Timestamps *)

Section Timestamps.

Lemma integers_from_covers (f : Z -> bool) (lo : Z) (n : nat) :
  forallb f (integers_from lo n) = true ->
  forall z, lo <= z < lo + Z.of_nat n -> f z = true.
Proof.
  intros H z Hz. rewrite forallb_forall in H. apply H.
  unfold integers_from. apply in_map_iff.
  exists (Z.to_nat (z - lo)). split; [lia|]. apply in_seq. lia.
Qed.

Lemma two_digits_checked :
  forallb two_digits_of (integers_from 0 100) = true.
Proof. vm_compute. reflexivity. Qed.

Lemma four_digits_checked :
  forallb four_digits_of (integers_from 1000 (Z.to_nat 9000)) = true.
Proof. vm_compute. reflexivity. Qed.

Lemma pad2_shape (n : Z) :
  0 <= n <= 99 ->
  exists a b,
    pad2 n = String a (String b EmptyString)
    /\ is_digit a = true /\ is_digit b = true
    /\ digits_value [a; b] = n.
Proof.
  intros Hn.
  assert (H : two_digits_of n = true)
    by (apply (integers_from_covers _ 0 100 two_digits_checked); lia).
  unfold two_digits_of in H.
  destruct (pad2 n) as [|a [|b [|c s]]]; try discriminate.
  rewrite !andb_true_iff in H. destruct H as ((Ha & Hb) & Hv).
  apply Z.eqb_eq in Hv. eauto 10.
Qed.

Lemma year_shape (y : Z) :
  1000 <= y <= 9999 ->
  exists a b c d,
    str_int y = String a (String b (String c (String d EmptyString)))
    /\ is_digit a = true /\ is_digit b = true
    /\ is_digit c = true /\ is_digit d = true
    /\ digits_value [a; b; c; d] = y.
Proof.
  intros Hy.
  assert (H : four_digits_of y = true).
  { apply (integers_from_covers _ 1000 (Z.to_nat 9000) four_digits_checked).
    lia. }
  unfold four_digits_of in H.
  destruct (str_int y) as [|a [|b [|c [|d [|e s]]]]]; try discriminate.
  rewrite !andb_true_iff in H. destruct H as ((((Ha & Hb) & Hc) & Hd) & Hv).
  apply Z.eqb_eq in Hv. exists a, b, c, d. auto 10.
Qed.

Lemma current_time_shape (clock : datetime) :
  current_time clock
  = (str_int (year clock) ++ "-" ++ pad2 (month clock) ++ "-"
     ++ pad2 (day clock) ++ "T" ++ pad2 (hour clock) ++ ":"
     ++ pad2 (minute clock) ++ ":" ++ pad2 (second clock) ++ "+0000")%string.
Proof. reflexivity. Qed.


Lemma take_two_digits a b rest :
  is_digit a = true -> is_digit b = true ->
  take_digits 2 (a :: b :: rest) = ([a; b], rest).
Proof. intros Ha Hb. simpl. now rewrite Ha, Hb. Qed.

Lemma parse_field_digits lo hi a b rest :
  is_digit a = true -> is_digit b = true ->
  lo <= digits_value [a; b] <= hi ->
  parse_field lo hi (a :: b :: rest) = Some (digits_value [a; b], rest).
Proof.
  intros Ha Hb Hv. unfold parse_field. rewrite take_two_digits by assumption.
  replace (lo <=? digits_value [a; b]) with true
    by (symmetry; apply Z.leb_le; lia).
  replace (digits_value [a; b] <=? hi) with true
    by (symmetry; apply Z.leb_le; lia).
  reflexivity.
Qed.

Lemma parse_year_digits a b c d rest :
  is_digit a = true -> is_digit b = true ->
  is_digit c = true -> is_digit d = true ->
  parse_year (a :: b :: c :: d :: rest)
  = Some (digits_value [a; b; c; d], rest).
Proof.
  intros Ha Hb Hc Hd. unfold parse_year. simpl take_digits.
  now rewrite Ha, Hb, Hc, Hd.
Qed.

Lemma parse_day_digit a rest :
  is_digit a = true -> parse_day (a :: rest) = parse_field 1 31 (a :: rest).
Proof.
  destruct a as [[] [] [] [] [] [] [] []]; try discriminate; reflexivity.
Qed.

Lemma valid_clock_ranges (clock : datetime) :
  valid_clock clock ->
  1000 <= year clock <= 9999 /\ 1 <= month clock <= 12
  /\ 1 <= day clock <= 31 /\ 0 <= hour clock <= 23
  /\ 0 <= minute clock <= 59 /\ 0 <= second clock <= 59.
Proof.
  intros [Hv Hyear]. unfold valid_datetime in Hv. simpl in Hv.
  rewrite !andb_true_iff, !Z.leb_le in Hv.
  assert (Hdim : days_in_month (year clock) (month clock) <= 31).
  { unfold days_in_month.
    repeat match goal with |- context [if ?b then _ else _] => destruct b end;
      lia. }
  lia.
Qed.

Lemma timestamps_read_back (clock : datetime) :
  valid_clock clock ->
  strptime (current_time clock) ISO_FORMAT = Returns (now_utc clock).
Proof.
  intros Hclock. pose proof (valid_clock_ranges clock Hclock) as Hr.
  destruct Hclock as [Hvalid _].
  destruct (year_shape (year clock))
    as (y1 & y2 & y3 & y4 & Ey & ? & ? & ? & ? & Vy); [lia|].
  destruct (pad2_shape (month clock)) as (m1 & m2 & Em & ? & ? & Vm); [lia|].
  destruct (pad2_shape (day clock)) as (d1 & d2 & Ed & ? & ? & Vd); [lia|].
  destruct (pad2_shape (hour clock)) as (h1 & h2 & Eh & ? & ? & Vh); [lia|].
  destruct (pad2_shape (minute clock)) as (n1 & n2 & En & ? & ? & Vn); [lia|].
  destruct (pad2_shape (second clock)) as (s1 & s2 & Es & ? & ? & Vs); [lia|].
  rewrite current_time_shape, Ey, Em, Ed, Eh, En, Es.
  unfold strptime.
  change (directives (list_ascii_of_string ISO_FORMAT))
    with [dY; Lit "-"%char; dm; Lit "-"%char; dd; Lit "T"%char; dH;
          Lit ":"%char; dM; Lit ":"%char; dS; dz].
  cbn [append list_ascii_of_string parse_directives parse_directive
       option_map].
  rewrite parse_year_digits by assumption.
  cbn [parse_directives parse_directive option_map Ascii.eqb Bool.eqb
       year month day hour minute second tzinfo].
  rewrite parse_field_digits by (auto; lia).
  cbn [parse_directives parse_directive option_map Ascii.eqb Bool.eqb
       year month day hour minute second tzinfo].
  rewrite parse_day_digit, parse_field_digits by (auto; lia).
  cbn [parse_directives parse_directive option_map Ascii.eqb Bool.eqb
       year month day hour minute second tzinfo].
  rewrite parse_field_digits by (auto; lia).
  cbn [parse_directives parse_directive option_map Ascii.eqb Bool.eqb
       year month day hour minute second tzinfo].
  rewrite parse_field_digits by (auto; lia).
  cbn [parse_directives parse_directive option_map Ascii.eqb Bool.eqb
       year month day hour minute second tzinfo].
  rewrite parse_field_digits by (auto; lia).
  cbn [parse_directives parse_directive option_map
       year month day hour minute second tzinfo].
  change (parse_z _) with (Some (0, @nil ascii)).
  cbn [parse_directives parse_directive option_map
       year month day hour minute second tzinfo].
  rewrite Vy, Vm, Vd, Vh, Vn, Vs.
  change (mkdatetime (year clock) (month clock) (day clock) (hour clock)
            (minute clock) (second clock) (Some 0)) with (now_utc clock).
  now rewrite Hvalid.
Qed.

Lemma compare_cons a s b t :
  String.compare (String a s) (String b t)
  = lexicographic (Ascii.compare a b) (String.compare s t).
Proof. simpl. now destruct (Ascii.compare a b). Qed.

Lemma digit_compare a b :
  Ascii.compare a b = (digit_value a ?= digit_value b).
Proof.
  unfold Ascii.compare, digit_value, code, nat_of_ascii.
  rewrite !N_nat_Z.
  destruct (N.compare_spec (N_of_ascii a) (N_of_ascii b)) as [H | H | H];
    symmetry.
  - rewrite H. apply Z.compare_refl.
  - apply Z.compare_lt_iff. lia.
  - apply Z.compare_gt_iff. lia.
Qed.

Lemma digit_range a : is_digit a = true -> 0 <= digit_value a < 10.
Proof.
  unfold is_digit, digit_value. rewrite andb_true_iff, !Z.leb_le. lia.
Qed.

Lemma lexicographic_merge hi hi' lo lo' k :
  0 <= lo < 10 -> 0 <= lo' < 10 ->
  lexicographic (hi ?= hi') (lexicographic (lo ?= lo') k)
  = lexicographic (10 * hi + lo ?= 10 * hi' + lo') k.
Proof.
  intros Hlo Hlo'.
  destruct (Z.compare_spec hi hi') as [H | H | H]; cbn [lexicographic].
  - subst. now rewrite Z.add_compare_mono_l.
  - assert (E : (10 * hi + lo ?= 10 * hi' + lo') = Lt)
      by (apply Z.compare_lt_iff; lia).
    now rewrite E.
  - assert (E : (10 * hi + lo ?= 10 * hi' + lo') = Gt)
      by (apply Z.compare_gt_iff; lia).
    now rewrite E.
Qed.

Lemma digits_value_2 a b :
  digits_value [a; b] = 10 * digit_value a + digit_value b.
Proof. unfold digits_value. simpl. lia. Qed.

Lemma digits_value_4 a b c d :
  digits_value [a; b; c; d]
  = 10 * (10 * (10 * digit_value a + digit_value b) + digit_value c)
    + digit_value d.
Proof. unfold digits_value. simpl. lia. Qed.

Lemma timestamps_compare (a b : datetime) :
  valid_clock a -> valid_clock b ->
  String.compare (current_time a) (current_time b) = chronological a b.
Proof.
  intros Ha Hb.
  pose proof (valid_clock_ranges a Ha) as Ra.
  pose proof (valid_clock_ranges b Hb) as Rb.
  destruct (year_shape (year a))
    as (y1 & y2 & y3 & y4 & Ey & Dy1 & Dy2 & Dy3 & Dy4 & Vy); [lia|].
  destruct (pad2_shape (month a)) as (m1 & m2 & Em & Dm1 & Dm2 & Vm); [lia|].
  destruct (pad2_shape (day a)) as (d1 & d2 & Ed & Dd1 & Dd2 & Vd); [lia|].
  destruct (pad2_shape (hour a)) as (h1 & h2 & Eh & Dh1 & Dh2 & Vh); [lia|].
  destruct (pad2_shape (minute a)) as (n1 & n2 & En & Dn1 & Dn2 & Vn); [lia|].
  destruct (pad2_shape (second a)) as (s1 & s2 & Es & Ds1 & Ds2 & Vs); [lia|].
  destruct (year_shape (year b))
    as (y1' & y2' & y3' & y4' & Ey' & Dy1' & Dy2' & Dy3' & Dy4' & Vy');
    [lia|].
  destruct (pad2_shape (month b)) as (m1' & m2' & Em' & Dm1' & Dm2' & Vm');
    [lia|].
  destruct (pad2_shape (day b)) as (d1' & d2' & Ed' & Dd1' & Dd2' & Vd');
    [lia|].
  destruct (pad2_shape (hour b)) as (h1' & h2' & Eh' & Dh1' & Dh2' & Vh');
    [lia|].
  destruct (pad2_shape (minute b)) as (n1' & n2' & En' & Dn1' & Dn2' & Vn');
    [lia|].
  destruct (pad2_shape (second b)) as (s1' & s2' & Es' & Ds1' & Ds2' & Vs');
    [lia|].
  rewrite !current_time_shape, Ey, Em, Ed, Eh, En, Es, Ey', Em', Ed', Eh',
    En', Es'.
  cbn [append]. rewrite !compare_cons.
  change (String.compare "+0000" "+0000") with Eq.
  change (Ascii.compare "-" "-") with Eq.
  change (Ascii.compare "T" "T") with Eq.
  change (Ascii.compare ":" ":") with Eq.
  cbn [lexicographic]. rewrite !digit_compare.
  apply digit_range in Dy1, Dy2, Dy3, Dy4, Dm1, Dm2, Dd1, Dd2, Dh1, Dh2,
    Dn1, Dn2, Ds1, Ds2, Dy1', Dy2', Dy3', Dy4', Dm1', Dm2', Dd1', Dd2',
    Dh1', Dh2', Dn1', Dn2', Ds1', Ds2'.
  rewrite digits_value_4 in Vy, Vy'. rewrite digits_value_2 in *.
  rewrite (lexicographic_merge (digit_value y1) (digit_value y1')
             (digit_value y2) (digit_value y2')) by assumption.
  rewrite (lexicographic_merge _ _ (digit_value y3) (digit_value y3'))
    by assumption.
  rewrite (lexicographic_merge _ _ (digit_value y4) (digit_value y4'))
    by assumption.
  rewrite (lexicographic_merge (digit_value m1) (digit_value m1')
             (digit_value m2) (digit_value m2')) by assumption.
  rewrite (lexicographic_merge (digit_value d1) (digit_value d1')
             (digit_value d2) (digit_value d2')) by assumption.
  rewrite (lexicographic_merge (digit_value h1) (digit_value h1')
             (digit_value h2) (digit_value h2')) by assumption.
  rewrite (lexicographic_merge (digit_value n1) (digit_value n1')
             (digit_value n2) (digit_value n2')) by assumption.
  rewrite (lexicographic_merge (digit_value s1) (digit_value s1')
             (digit_value s2) (digit_value s2')) by assumption.
  rewrite Vy, Vy', Vm, Vm', Vd, Vd', Vh, Vh', Vn, Vn', Vs, Vs'.
  unfold chronological.
  now destruct (second a ?= second b).
Qed.

End Timestamps.

(** X16.  A timestamp written by the store is read back by
    [format_date_display] as the very date and time it was made from, and
    shown as date, blank, hours and minutes: for every clock reading
    with a four-digit year, parsing [current_time] gives the reading
    back. *)
Theorem stored_timestamps_read_back :
  forall clock : datetime,
    valid_clock clock ->
    strptime (current_time clock) ISO_FORMAT = Returns (now_utc clock)
    /\ format_date_display (current_time clock)
       = strftime (now_utc clock) "%Y-%m-%d %H:%M".
Proof.
  intros clock Hclock. unfold format_date_display.
  rewrite (timestamps_read_back clock Hclock). auto.
Qed.

Lemma stored_timestamps_witness :
  strptime (current_time half_past_two) ISO_FORMAT
  = Returns (now_utc half_past_two)
  /\ format_date_display (current_time half_past_two)
     = strftime (now_utc half_past_two) "%Y-%m-%d %H:%M".
Proof.
  apply (stored_timestamps_read_back half_past_two).
  split; [reflexivity | simpl; lia].
Defined.

(** X17.  The text order of stored timestamps is the order of time: for
    two clock readings with four-digit years, comparing the timestamps
    as text gives the same result as comparing year, month, day, hour,
    minute and second in turn. *)
Theorem timestamp_order_is_chronological :
  forall a b : datetime,
    valid_clock a ->
    valid_clock b ->
    String.compare (current_time a) (current_time b) = chronological a b.
Proof. exact timestamps_compare. Qed.

Lemma timestamp_order_witness :
  String.compare (current_time noon) (current_time last_second)
  = chronological noon last_second.
Proof.
  apply (timestamp_order_is_chronological noon last_second);
    (split; [reflexivity | simpl; lia]).
Defined.

(** ** The export menu *)

Section ExportName.






End ExportName.



(** ** The spending summary as printed *)

Section Summary.

Lemma amount_insert_perm item l : Permutation (item :: l) (amount_insert item l).
Proof.
  induction l as [|x l IH]; simpl; auto.
  destruct (Qle_bool (snd x) (snd item)); auto.
  rewrite perm_swap. now constructor.
Qed.

Lemma sorted_by_amount_perm l : Permutation l (sorted_by_amount l).
Proof.
  induction l as [|x l IH]; simpl; auto.
  rewrite <- amount_insert_perm. now constructor.
Qed.

Lemma amount_insert_sorted item l :
  StronglySorted (fun x y : string * Q => (snd y <= snd x)%Q) l ->
  StronglySorted (fun x y : string * Q => (snd y <= snd x)%Q)
                 (amount_insert item l).
Proof.
  induction 1 as [|x l Hl IH Hx]; simpl; [repeat constructor|].
  destruct (Qle_bool (snd x) (snd item)) eqn:E.
  - apply Qle_bool_iff in E. constructor; [now constructor|].
    constructor; auto.
    eapply Forall_impl; [|exact Hx]. simpl. intros y Hy.
    eapply Qle_trans; eauto.
  - constructor; auto. rewrite <- amount_insert_perm. constructor; auto.
    apply Qlt_le_weak, Qnot_le_lt. intros H.
    apply Qle_bool_iff in H. congruence.
Qed.

Lemma sorted_by_amount_sorted l :
  StronglySorted (fun x y : string * Q => (snd y <= snd x)%Q)
                 (sorted_by_amount l).
Proof.
  induction l as [|x l IH]; simpl; [constructor|].
  now apply amount_insert_sorted.
Qed.

Lemma total_perm (xs ys : list Q) :
  Permutation xs ys -> (total xs == total ys)%Q.
Proof.
  induction 1 as [|x l l' _ IH|x y l|l l' l'' _ IH1 _ IH2]; simpl.
  - reflexivity.
  - now rewrite IH.
  - ring.
  - now rewrite IH1.
Qed.

Lemma total_shares (t : Q) (items : list (string * Q)) :
  ~ (t == 0)%Q ->
  (total (map (fun x => snd x / t * 100) items)
   == total (map snd items) / t * 100)%Q.
Proof.
  intros Ht. induction items as [|x items IH]; simpl.
  - field. exact Ht.
  - rewrite IH. field. exact Ht.
Qed.

Lemma summary_rows_spec (spending : list (string * Q)) :
  let rows := fst (summary_rows spending) in
  let printed_total := snd (summary_rows spending) in
  Permutation (map fst rows) spending
  /\ StronglySorted (fun x y => (snd (fst y) <= snd (fst x))%Q) rows
  /\ (printed_total == total (map snd spending))%Q
  /\ ((0 < printed_total)%Q -> (total (map snd rows) == 100)%Q)
  /\ ((printed_total <= 0)%Q -> Forall (fun r => snd r = 0%Q) rows).
Proof.
  unfold summary_rows. cbn [fst snd].
  set (t := py_sum (map snd spending)).
  assert (Ht : (t == total (map snd spending))%Q).
  { unfold t, py_sum. rewrite fold_left_Qplus. ring. }
  assert (Hfst : forall (p : Q -> Q) (items : list (string * Q)),
            map fst (map (fun '(category, amount) =>
                            (category, amount, p amount)) items)
            = items).
  { intros p items. induction items as [|[c a] items IH]; simpl; congruence. }
  pose proof (sorted_by_amount_perm spending) as Hperm.
  pose proof (sorted_by_amount_sorted spending) as Hsorted.
  split; [|split; [|split; [|split]]].
  - rewrite (Hfst (fun amount => if Qle_bool t 0 then 0%Q
                                 else (amount / t * 100)%Q)).
    now apply Permutation_sym.
  - clear Hperm.
    induction Hsorted as [|[c a] l Hl IH Hx]; simpl; constructor; auto.
    rewrite Forall_map. eapply Forall_impl; [|exact Hx].
    intros [c' a'] H. exact H.
  - exact Ht.
  - intros Hpos.
    assert (Hb : Qle_bool t 0 = false).
    { destruct (Qle_bool t 0) eqn:E; auto. apply Qle_bool_iff in E.
      exfalso. eapply Qlt_not_le; eauto. }
    rewrite Hb, map_map.
    erewrite (map_ext _ (fun x => (snd x / t * 100)%Q));
      [|intros [c a]; reflexivity].
    assert (Hne : ~ (t == 0)%Q).
    { intros H0. rewrite H0 in Hpos. discriminate. }
    rewrite total_shares by exact Hne.
    rewrite <- (total_perm _ _ (Permutation_map snd Hperm)), <- Ht.
    field. exact Hne.
  - intros Hle. apply Qle_bool_iff in Hle. rewrite Hle.
    rewrite Forall_map. apply Forall_forall. intros [c a] _. reflexivity.
Qed.

End Summary.

(** X19.  The spending summary prints every category of the query once,
    largest amount first, with the sum of the amounts as total; when
    that total is above 0 the percentages printed add up to 100 (taken
    exactly), and otherwise every percentage is 0. *)
Theorem summary_percentages_add_up :
  forall spending : list (string * Q),
    let rows := fst (summary_rows spending) in
    let printed_total := snd (summary_rows spending) in
    Permutation (map fst rows) spending
    /\ StronglySorted (fun x y => (snd (fst y) <= snd (fst x))%Q) rows
    /\ (printed_total == total (map snd spending))%Q
    /\ ((0 < printed_total)%Q -> (total (map snd rows) == 100)%Q)
    /\ ((printed_total <= 0)%Q -> Forall (fun r => snd r = 0%Q) rows).
Proof. exact summary_rows_spec. Qed.

Lemma summary_percentages_witness :
  (total (map snd (fst (summary_rows [("Food"%string, 30%Q);
                                      ("Rent"%string, 70%Q);
                                      ("Transport"%string, 25.5%Q)])))
   == 100)%Q.
Proof.
  apply (summary_percentages_add_up [("Food"%string, 30%Q);
                                     ("Rent"%string, 70%Q);
                                     ("Transport"%string, 25.5%Q)]).
  reflexivity.
Defined.

(** ** Amounts on screen *)

Section Display.

Lemma uint_text_has_no_point (d : Decimal.uint) :
  Forall not_a_point (list_ascii_of_string (NilEmpty.string_of_uint d)).
Proof. induction d; simpl; constructor; auto; reflexivity. Qed.

Lemma str_int_has_no_point (n : Z) :
  Forall not_a_point (list_ascii_of_string (str_int n)).
Proof.
  unfold str_int, NilZero.string_of_int, NilZero.string_of_uint.
  destruct (Z.to_int n) as [d | d].
  - destruct d; try apply uint_text_has_no_point.
    repeat constructor.
  - simpl. constructor; [reflexivity|].
    destruct d; try apply uint_text_has_no_point.
    repeat constructor.
Qed.

Lemma list_of_append (s t : string) :
  list_ascii_of_string (s ++ t)
  = list_ascii_of_string s ++ list_ascii_of_string t.
Proof. induction s as [|c s IH]; simpl; congruence. Qed.

Lemma append_associative (s t u : string) :
  ((s ++ t) ++ u = s ++ t ++ u)%string.
Proof. induction s as [|c s IH]; simpl; congruence. Qed.

Lemma two_decimal_places_after (before rest : list ascii) :
  Forall not_a_point before ->
  two_decimal_places (before ++ rest) = two_decimal_places rest.
Proof.
  induction 1 as [|c before Hc _ IH]; simpl; auto.
  unfold not_a_point in Hc. now rewrite Hc.
Qed.

Lemma format_fixed_2_shape (x : Q) :
  let shown := format_fixed 2 x in
  shown = "inf"%string \/ shown = "-inf"%string
  \/ two_decimal_places (list_ascii_of_string shown) = true.
Proof.
  unfold format_fixed.
  set (f := if Qeq_bool (Qabs x) 0 then 0%Q else binary64 (Qabs x)).
  destruct (Qle_bool two_pow_1024 f).
  - destruct (Qle_bool 0 x); auto.
  - right. right.
    set (m := scaled_round 10 f (Z.of_nat 2)).
    change (10 ^ Z.of_nat 2) with 100.
    change (zfill 2 (str_int (m mod 100))) with (pad2 (m mod 100)).
    destruct (pad2_shape (m mod 100)) as (a & b & E & Da & Db & _).
    { pose proof (Z.mod_pos_bound m 100). lia. }
    rewrite E, !list_of_append, app_assoc.
    rewrite two_decimal_places_after.
    + simpl. now rewrite Da, Db.
    + apply Forall_app. split; [|apply str_int_has_no_point].
      destruct (Qle_bool 0 x); repeat constructor.
Qed.

End Display.

(** X20.  On screen an amount always has exactly two decimal places:
    [Transaction.display] and [Account.display] write the amount and the
    balance through the two-place format, whose text, for any value
    short of overflow, ends in a point and two digits. *)
Theorem display_shows_two_decimals :
  forall (tx : Transaction.t) (acc : Account.t),
    (exists before after,
        display_transaction tx
        = (before ++ format_fixed 2 (Transaction.amount tx) ++ after)%string)
    /\ (exists before,
        display_account acc
        = (before ++ format_fixed 2 (Account.balance acc))%string)
    /\ forall x : Q,
        format_fixed 2 x = "inf"%string \/ format_fixed 2 x = "-inf"%string
        \/ two_decimal_places (list_ascii_of_string (format_fixed 2 x)) = true.
Proof.
  intros tx acc. split; [|split].
  - unfold display_transaction.
    exists ("[" ++ str_int (Transaction.id tx) ++ "] "
            ++ format_date_display (Transaction.timestamp tx) ++ " "
            ++ match TRANSACTION_TYPES (Transaction.type tx) with
               | Some s => s
               | None => EmptyString
               end)%string.
    exists (" | " ++ ljust 15 (Transaction.category tx) ++ " | "
            ++ Transaction.description tx)%string.
    rewrite !append_associative. reflexivity.
  - unfold display_account.
    exists ("[" ++ str_int (Account.id acc) ++ "] "
            ++ ljust 20 (Account.name acc) ++ " | Balance: ")%string.
    rewrite !append_associative. reflexivity.
  - apply format_fixed_2_shape.
Qed.

(** ** Day bounds *)

Section DayBounds.

Lemma compare_append_same_length (s t x y : string) :
  String.length s = String.length t ->
  String.compare (s ++ x) (t ++ y)
  = lexicographic (String.compare s t) (String.compare x y).
Proof.
  revert t. induction s as [|a s IH]; intros [|b t] Hlen; simpl in *;
    try discriminate; auto.
  destruct (Ascii.compare a b); auto.
Qed.

Lemma digit_not_space c : is_digit c = true -> is_space c = false.
Proof.
  unfold is_digit, is_space.
  rewrite andb_true_iff, !Z.leb_le. intros [H1 H2].
  apply orb_false_iff. split; apply andb_false_iff.
  - right. apply Z.leb_gt. lia.
  - right. apply Z.leb_gt. lia.
Qed.

Lemma valid_clock_at (day : datetime) (h m s : Z) :
  valid_clock day ->
  0 <= h <= 23 -> 0 <= m <= 59 -> 0 <= s <= 59 ->
  valid_clock (replace_time day h m s).
Proof.
  intros [Hv Hy] Hh Hm Hs. split; [|exact Hy].
  unfold valid_datetime in *. simpl in *.
  rewrite !andb_true_iff, !Z.leb_le in *. lia.
Qed.

(** The text of a day, as typed at the date prompts. *)
Lemma day_text_shape (dt : datetime) :
  strftime dt "%Y-%m-%d"
  = (str_int (year dt) ++ "-" ++ pad2 (month dt) ++ "-" ++ pad2 (day dt))%string.
Proof. reflexivity. Qed.

Lemma naive_bound_shape (dt : datetime) (h m s : Z) :
  (strftime (mkdatetime (year dt) (month dt) (day dt) h m s None) ISO_FORMAT
   = str_int (year dt) ++ "-" ++ pad2 (month dt) ++ "-" ++ pad2 (day dt)
     ++ "T" ++ pad2 h ++ ":" ++ pad2 m ++ ":" ++ pad2 s ++ EmptyString)%string.
Proof. reflexivity. Qed.

Lemma day_text_is_read (dt : datetime) :
  valid_clock dt ->
  strip (strftime dt "%Y-%m-%d") = strftime dt "%Y-%m-%d"
  /\ strftime dt "%Y-%m-%d" <> EmptyString
  /\ strptime (strftime dt "%Y-%m-%d") "%Y-%m-%d"
     = Returns (mkdatetime (year dt) (month dt) (day dt) 0 0 0 None).
Proof.
  intros Hclock. pose proof (valid_clock_ranges dt Hclock) as Hr.
  destruct Hclock as [Hvalid _].
  destruct (year_shape (year dt))
    as (y1 & y2 & y3 & y4 & Ey & Dy1 & ? & ? & ? & Vy); [lia|].
  destruct (pad2_shape (month dt)) as (m1 & m2 & Em & ? & ? & Vm); [lia|].
  destruct (pad2_shape (day dt)) as (d1 & d2 & Ed & ? & Dd2 & Vd); [lia|].
  rewrite day_text_shape, Ey, Em, Ed. cbn [append]. repeat split.
  - unfold strip. cbn [list_ascii_of_string lstrip].
    rewrite (digit_not_space y1 Dy1). cbn [rev app lstrip].
    rewrite (digit_not_space d2 Dd2). reflexivity.
  - discriminate.
  - unfold strptime.
    change (directives (list_ascii_of_string "%Y-%m-%d"))
      with [dY; Lit "-"%char; dm; Lit "-"%char; dd].
    cbn [list_ascii_of_string parse_directives parse_directive option_map].
    rewrite parse_year_digits by assumption.
    cbn [parse_directives parse_directive option_map Ascii.eqb Bool.eqb
         year month day hour minute second tzinfo].
    rewrite parse_field_digits by (auto; lia).
    cbn [parse_directives parse_directive option_map Ascii.eqb Bool.eqb
         year month day hour minute second tzinfo].
    rewrite parse_day_digit, parse_field_digits by (auto; lia).
    cbn [parse_directives parse_directive option_map
         year month day hour minute second tzinfo].
    rewrite Vy, Vm, Vd.
    replace (valid_datetime _) with true; [reflexivity|].
    symmetry. unfold valid_datetime in *. simpl in *.
    rewrite !andb_true_iff, !Z.leb_le in *. lia.
Qed.

(** A stored timestamp is a text of 19 characters followed by the
    offset; the same text without offset is what a naive value gives. *)
Lemma timestamp_core (c : datetime) :
  valid_clock c ->
  exists core,
    current_time c = (core ++ "+0000")%string
    /\ strftime (mkdatetime (year c) (month c) (day c) (hour c)
                   (minute c) (second c) None) ISO_FORMAT = core
    /\ String.length core = 19%nat.
Proof.
  intros Hc. pose proof (valid_clock_ranges c Hc) as Rc.
  destruct (year_shape (year c)) as (y1 & y2 & y3 & y4 & Ey & _); [lia|].
  destruct (pad2_shape (month c)) as (m1 & m2 & Em & _); [lia|].
  destruct (pad2_shape (day c)) as (d1 & d2 & Ed & _); [lia|].
  destruct (pad2_shape (hour c)) as (h1 & h2 & Eh & _); [lia|].
  destruct (pad2_shape (minute c)) as (n1 & n2 & En & _); [lia|].
  destruct (pad2_shape (second c)) as (s1 & s2 & Es & _); [lia|].
  eexists. rewrite current_time_shape.
  rewrite (naive_bound_shape c (hour c) (minute c) (second c)).
  rewrite Ey, Em, Ed, Eh, En, Es. cbn [append].
  split; [|split]; [|reflexivity|reflexivity]. reflexivity.
Qed.

Lemma append_empty (s : string) : (s ++ EmptyString)%string = s.
Proof. induction s as [|c s IH]; simpl; congruence. Qed.

(** A bound without offset against a stored timestamp. *)
Lemma bound_against_timestamp (bound stamped : datetime) :
  valid_clock bound -> valid_clock stamped ->
  String.compare
    (strftime (mkdatetime (year bound) (month bound) (day bound)
                 (hour bound) (minute bound) (second bound) None) ISO_FORMAT)
    (current_time stamped)
  = lexicographic (chronological bound stamped) Lt.
Proof.
  intros Hb Hs.
  pose proof (timestamps_compare bound stamped Hb Hs) as Hcmp.
  destruct (timestamp_core bound Hb) as (cb & Eb & Tb & Lb).
  destruct (timestamp_core stamped Hs) as (cs & Es & _ & Ls).
  rewrite Tb, Es. rewrite Eb, Es in Hcmp.
  rewrite compare_append_same_length in Hcmp by congruence.
  change (String.compare "+0000" "+0000") with Eq in Hcmp.
  assert (Hcore : String.compare cb cs = chronological bound stamped).
  { rewrite <- Hcmp. now destruct (String.compare cb cs). }
  rewrite <- (append_empty cb) at 1.
  rewrite compare_append_same_length by congruence.
  now rewrite Hcore.
Qed.

Lemma chronological_antisym (a b : datetime) :
  valid_clock a -> valid_clock b ->
  chronological a b = CompOpp (chronological b a).
Proof.
  intros Ha Hb.
  rewrite <- (timestamps_compare a b Ha Hb), <- (timestamps_compare b a Hb Ha).
  apply String.compare_antisym.
Qed.

Lemma day_bounds_spec (date stamped : datetime) (row : Transaction.t) :
  valid_clock date ->
  valid_clock stamped ->
  Transaction.timestamp row = current_time stamped ->
  exists start_bound end_bound,
    FinanceManager._get_date_range (strftime date "%Y-%m-%d")
      (strftime date "%Y-%m-%d")
    = (Some start_bound, Some end_bound)
    /\ (within_dates (Some start_bound) None row = true <->
        chronological (replace_time date 0 0 0) stamped <> Gt)
    /\ (within_dates None (Some end_bound) row = true <->
        chronological stamped (replace_time date 23 59 59) = Lt).
Proof.
  intros Hday Hstamped Hts.
  destruct (day_text_is_read date Hday) as (Hstrip & Hne & Hparse).
  assert (Hfirst : valid_clock (replace_time date 0 0 0))
    by (apply valid_clock_at; auto; lia).
  assert (Hlast : valid_clock (replace_time date 23 59 59))
    by (apply valid_clock_at; auto; lia).
  pose proof (bound_against_timestamp _ stamped Hfirst Hstamped) as Hstart.
  pose proof (bound_against_timestamp _ stamped Hlast Hstamped) as Hend.
  destruct (timestamp_core _ Hfirst) as (c1 & _ & T1 & L1).
  destruct (timestamp_core _ Hlast) as (c2 & _ & T2 & L2).
  cbn [replace_time year month day hour minute second] in Hstart, Hend, T1, T2.
  exists (strftime (mkdatetime (year date) (month date) (day date) 0 0 0 None)
            ISO_FORMAT),
         (strftime (mkdatetime (year date) (month date) (day date) 23 59 59 None)
            ISO_FORMAT).
  split; [|split].
  - unfold FinanceManager._get_date_range. rewrite Hstrip.
    destruct (strftime date "%Y-%m-%d") as [|ch rest] eqn:E; [contradiction|].
    cbn [truthy]. rewrite Hparse. reflexivity.
  - unfold within_dates, where_clause. rewrite Z.eqb_refl, Hts.
    rewrite T1 in *. destruct c1 as [|ch c1]; [discriminate|].
    cbn [truthy str_or_empty andb]. rewrite andb_true_r.
    unfold String.leb. rewrite Hstart.
    destruct (chronological (replace_time date 0 0 0) stamped); simpl;
      split; congruence.
  - unfold within_dates, where_clause. rewrite Z.eqb_refl, Hts.
    rewrite T2 in *. destruct c2 as [|ch c2]; [discriminate|].
    cbn [truthy str_or_empty andb].
    unfold String.leb. rewrite String.compare_antisym, Hend.
    rewrite (chronological_antisym stamped _ Hstamped Hlast).
    destruct (chronological (replace_time date 23 59 59) stamped); simpl;
      split; congruence.
Qed.

End DayBounds.

(** X21.  When a day is typed as start date, a stored transaction is
    kept exactly when it was stamped at or after the first second of
    that day; when it is typed as end date, a stored transaction is kept
    exactly when it was stamped strictly before 23:59:59 of that day, so
    the last second of the end day is always left out. *)
Theorem day_filter_includes_start_excludes_end :
  forall (date stamped : datetime) (row : Transaction.t),
    valid_clock date ->
    valid_clock stamped ->
    Transaction.timestamp row = current_time stamped ->
    exists start_bound end_bound,
      FinanceManager._get_date_range (strftime date "%Y-%m-%d")
        (strftime date "%Y-%m-%d")
      = (Some start_bound, Some end_bound)
      /\ (within_dates (Some start_bound) None row = true <->
          chronological (replace_time date 0 0 0) stamped <> Gt)
      /\ (within_dates None (Some end_bound) row = true <->
          chronological stamped (replace_time date 23 59 59) = Lt).
Proof. exact day_bounds_spec. Qed.

Lemma day_filter_witness :
  exists start_bound end_bound,
    FinanceManager._get_date_range (strftime noon "%Y-%m-%d")
      (strftime noon "%Y-%m-%d")
    = (Some start_bound, Some end_bound)
    /\ (within_dates (Some start_bound) None
          (Transaction.mk 1 1 (current_time last_second) 40 "expense" "Food"
                          EmptyString) = true <->
        chronological (replace_time noon 0 0 0) last_second <> Gt)
    /\ (within_dates None (Some end_bound)
          (Transaction.mk 1 1 (current_time last_second) 40 "expense" "Food"
                          EmptyString) = true <->
        chronological last_second (replace_time noon 23 59 59) = Lt).
Proof.
  apply (day_filter_includes_start_excludes_end noon last_second
           (Transaction.mk 1 1 (current_time last_second) 40 "expense" "Food"
                           EmptyString)).
  - split; [reflexivity | simpl; lia].
  - split; [reflexivity | simpl; lia].
  - reflexivity.
Defined.
